(** * math_bot: the Telegram front end ([math_bot/tg.py])

    A shallow embedding of the handlers of [tg.py] and of the report
    workflow they drive.  Handlers are functions in a small state-and-exception
    monad over a [World] made of the user/report store and of the chronological
    log of the calls issued to the bot API.  Collaborators that [tg.py] only
    imports ([config], [rings], [matrix], [logic], [safe_eval], [git],
    Python's [int], [float] and [str]) are interfaces (type classes); the
    store of [models] is modelled from the specification. *)

From Stdlib Require Import ZArith List String Ascii Bool Lia DecimalString.
From Stdlib Require QArith.
Import ListNotations.
Open Scope string_scope.
Open Scope Z_scope.

Set Implicit Arguments.

(** ** Python text primitives

    A text is the string of the bytes of its UTF-8 encoding, which is how
    the literals of [tg.py] read here; the methods of [str] work on its
    characters.  A byte that stands where no character can hold it is read as
    the character of its number. *)

Module Py.

(** The number of a byte. *)
Definition code (c : ascii) : Z := Z.of_nat (nat_of_ascii c).

(** A byte that continues a character. *)
Definition continues (c : ascii) : bool := (128 <=? code c) && (code c <? 192).

(** The bytes that follow this one in the character it starts. *)
Definition follow (c : ascii) : nat :=
  if code c <? 192 then 0%nat
  else if code c <? 224 then 1%nat
  else if code c <? 240 then 2%nat
  else 3%nat.

Definition newline : ascii := ascii_of_nat 10.
Definition nl : string := String newline "".

Definition snoc (s : string) (c : ascii) : string := s ++ String c "".

(** The run read so far, if any, ahead of the rest. *)
Definition flush (cur : string) (l : list string) : list string :=
  if (cur =? "")%string then l else cur :: l.

(** The characters of a text, each with its bytes; [cur] is the character
    being read and [need] counts the bytes it still takes. *)
Fixpoint chars_from (need : nat) (cur s : string) : list string :=
  match s with
  | EmptyString => flush cur []
  | String c s' =>
      match need with
      | S k =>
          if continues c then chars_from k (snoc cur c) s'
          else flush cur (chars_from (follow c) (String c "") s')
      | O => flush cur (chars_from (follow c) (String c "") s')
      end
  end.

Definition chars (s : string) : list string := chars_from 0 "" s.

(** The code point of a character. *)
Definition ord (ch : string) : Z :=
  match ch with
  | EmptyString => 0
  | String c0 EmptyString => code c0
  | String c0 (String c1 EmptyString) =>
      (code c0 - 192) * 64 + (code c1 - 128)
  | String c0 (String c1 (String c2 EmptyString)) =>
      (code c0 - 224) * 4096 + (code c1 - 128) * 64 + (code c2 - 128)
  | String c0 (String c1 (String c2 (String c3 _))) =>
      (code c0 - 240) * 262144 + (code c1 - 128) * 4096
      + (code c2 - 128) * 64 + (code c3 - 128)
  end.

(** [str.isspace] on one character: TAB..CR, FS..US, the blank, U+0085,
    U+00A0, U+1680, U+2000..U+200A, U+2028, U+2029, U+202F, U+205F and
    U+3000. *)
Definition isspace (ch : string) : bool :=
  let n := ord ch in
  ((9 <=? n) && (n <=? 13)) || ((28 <=? n) && (n <=? 32))
  || (n =? 133) || (n =? 160) || (n =? 5760)
  || ((8192 <=? n) && (n <=? 8202))
  || (n =? 8232) || (n =? 8233) || (n =? 8239) || (n =? 8287) || (n =? 12288).

(** [s.split()]: maximal runs of characters that are not white space; [cur]
    is the run being read. *)
Fixpoint split_chars (cur : string) (l : list string) : list string :=
  match l with
  | [] => flush cur []
  | ch :: l' =>
      if isspace ch then flush cur (split_chars "" l')
      else split_chars (cur ++ ch) l'
  end.

Definition split (s : string) : list string := split_chars "" (chars s).

(** [s.split(sep)] for a one-character separator: empty fields are kept. *)
Fixpoint split_on_from (sep : ascii) (cur s : string) : list string :=
  match s with
  | EmptyString => [cur]
  | String c s' =>
      if Ascii.eqb c sep then cur :: split_on_from sep "" s'
      else split_on_from sep (snoc cur c) s'
  end.

Definition split_on (sep : ascii) (s : string) : list string :=
  split_on_from sep "" s.

Definition lines (s : string) : list string := split_on newline s.

(** The text read up to the first newline. *)
Fixpoint first_line (s : string) : string :=
  match s with
  | EmptyString => EmptyString
  | String c s' => if Ascii.eqb c newline then EmptyString
                   else String c (first_line s')
  end.

(** The characters left once the white space ahead of them is gone. *)
Fixpoint drop_blanks (l : list string) : list string :=
  match l with
  | [] => []
  | ch :: l' => if isspace ch then drop_blanks l' else l
  end.

(** [s.lstrip()], [s.rstrip()] and [s.strip()] *)
Definition lstrip (s : string) : string :=
  String.concat "" (drop_blanks (chars s)).

Definition rstrip (s : string) : string :=
  String.concat "" (rev (drop_blanks (rev (chars s)))).

Definition strip (s : string) : string := rstrip (lstrip s).

(** [s[1:]] of a text whose first character takes one byte, as the [/] of a
    command does. *)
Definition tail (s : string) : string :=
  match s with
  | EmptyString => EmptyString
  | String _ s' => s'
  end.

(** [sep.join(l)] *)
Fixpoint join (sep : string) (l : list string) : string :=
  match l with
  | [] => ""
  | [x] => x
  | x :: l' => x ++ sep ++ join sep l'
  end.

(** [x in l] for a list of integers and for a list of strings. *)
Definition mem_int (x : Z) (l : list Z) : bool := existsb (Z.eqb x) l.
Definition mem_str (x : string) (l : list string) : bool :=
  existsb (String.eqb x) l.

(** No character of the text is white space. *)
Definition no_space (s : string) : Prop := existsb isspace (chars s) = false.

(** The text starts with a white-space character. *)
Definition starts_blank (s : string) : Prop :=
  match s, chars s with
  | String c _, ch :: _ => continues c = false /\ isspace ch = true
  | _, _ => False
  end.

Definition no_newline (s : string) : Prop :=
  forall c, In c (list_ascii_of_string s) -> c <> newline.

End Py.

(** Exceptions the handlers can meet. *)
Inductive Exn : Set :=
| AttributeError
| TypeError
| IndexError
| KeyError
| ValueError
| ArithmeticError
| ZeroDivisionError
| SizesMatchError
| SquareMatrixRequired
| NonInvertibleMatrix.

Inductive Outcome (A : Type) : Type :=
| Returned (a : A)
| Raised (e : Exn).
Arguments Returned {A} a.
Arguments Raised {A} e.

(** ** Interfaces of the imported collaborators *)

(** Python's conversions.  [int] and [float] answer [None] where Python
    raises [ValueError]; [str] renders an integer, [format_E] is the ["{:E}"]
    format. *)
Class Builtins : Type := {
  float_t : Type;
  int : string -> option Z;
  float : string -> option float_t;
  str : Z -> string;
  format_E : Z -> string
}.

(** [config.Config]: the administrators and the numeric limits. *)
Class Config : Type := {
  ADMINS : list Z;
  MAX_MATRIX : Z;
  MAX_MODULO : Z;
  MAX_ELEMENTS : Z;
  CHANNEL_LINK : string
}.

(** [rings]: [find_inverse] answers [Raised e] where the Python function
    raises. *)
Class Rings : Type := {
  idem_row : Type;
  str_row : idem_row -> string;
  find_idempotents : Z -> list (idem_row * Z);
  find_nilpotents : Z -> list Z;
  find_inverse : Z -> Z -> Outcome Z
}.

(** [matrix]: the constructor [Matrix.from_list], the attribute [n], the
    methods [det], [ref] and [inverse], and [str] on their results. *)
Class MatrixLib {B : Builtins} : Type := {
  Matrix : Type;
  from_list : list (list float_t) -> Outcome Matrix;
  matrix_n : Matrix -> Z;
  scalar : Type;
  matrix_det : Matrix -> Outcome scalar;
  matrix_ref : Matrix -> Outcome Matrix;
  matrix_inverse : Matrix -> Outcome Matrix;
  str_scalar : scalar -> string;
  str_matrix : Matrix -> string
}.

(** Rows of one length. *)
Definition rectangular {A} (lst : list (list A)) : bool :=
  match lst with
  | [] => true
  | r :: rs => forallb (fun r' => Nat.eqb (List.length r') (List.length r)) rs
  end.

(** Modelled from the spec: [Matrix.from_list] is not part of [tg.py]; it
    raises [SizesMatchError] on rows of unequal length. *)
Class MatrixLibSpec {B : Builtins} (L : MatrixLib) : Prop := {
  from_list_sizes :
    forall lst, rectangular lst = false -> from_list lst = Raised SizesMatchError
}.

(** [config.Config], continued: what [factorize_output] and [send_about]
    read. *)
Class Limits : Type := {
  FACTORIZE_MAX : Z;
  GITHUB_LINK : string
}.

(** [rings]: prime factorisation, its rendering, and the extended Euclid
    algorithm, which answers the triple (d, x, y). *)
Class NumberTheory : Type := {
  factors : Type;
  factorize : Z -> factors;
  factorize_str : factors -> string;
  ext_gcd : Z -> Z -> Z * Z * Z
}.

(** What [safe_eval] and [build_table] raise: the exceptions of the parser
    and of the evaluator, or a built-in exception. *)
Inductive EvalError : Set :=
| InvalidSyntax
| InvalidName
| InvalidArguments
| CalculationLimitError
| BuiltinError (e : Exn).

(** [safe_eval] and [logic.build_table], applied to [message.text] as it
    is; [build_table] answers the table and the variables. *)
Class Evaluators : Type := {
  value : Type;
  str_value : value -> string;
  safe_eval : option string -> value + EvalError;
  variable : Type;
  str_variable : variable -> string;
  cell : Type;
  str_cell : cell -> string;
  build_table : option string -> (list (list cell) * list variable) + EvalError
}.

(** [git]: what [send_about] reads of the repository in the working
    directory, taken to be a checkout: the tags that point at the head
    commit, in the order of [repo.tags], and the hash of that commit. *)
Class Git : Type := {
  tag : Type;
  str_tag : tag -> string;
  head_tags : list tag;
  head_hexsha : string
}.

(** ** Telegram objects *)

Record TgUser : Type := {
  tg_id : Z;
  tg_last_name : option string;
  tg_first_name : option string;
  tg_username : option string
}.

(** [message.text] is [None] for a message without text. *)
Record Message : Type := {
  msg_chat_id : Z;
  msg_id : Z;
  msg_from : TgUser;
  msg_text : option string
}.

Record CallbackQuery : Type := {
  call_data : string;
  call_message : Message;
  call_from : TgUser
}.

Inductive Markup : Type :=
| ReplyKeyboardMarkup (buttons : list string)
| ReplyKeyboardRemove
| InlineKeyboardMarkup (buttons : list (string * string)).

(** A report id as the handlers hold it: the token cut out of a message
    ([change_report_status]) or the integer read from callback data
    ([accept_link]). *)
Inductive Key : Type :=
| KStr (s : string)
| KInt (z : Z).

(** The handlers given to [register_next_step_handler], with the arguments
    bound at registration. *)
Inductive Step : Type :=
| matrix_input_step (action : string)
| ring_output_step (command : string)
| inverse_input_element_step
| inverse_output_step (modulo : Z)
| broadcast_step
| report_handling_step
| link_handling_step (id : Key)
| logic_output_step
| factorize_output_step
| euclid_output_step
| calc_output_step.

(** The calls [tg.py] issues on [bot]. *)
Inductive ApiCall : Type :=
| SendMessage (chat_id : Z) (text : option string) (parse_mode : option string)
    (reply_markup : option Markup)
| ReplyTo (to : Message) (text : string) (parse_mode : option string)
    (reply_markup : option Markup)
| RegisterNextStepHandler (chat_id : Z) (step : Step)
| ClearStepHandlerByChatId (chat_id : Z)
| DeleteMessage (chat_id message_id : Z)
| EditMessageReplyMarkup (chat_id message_id : Z) (reply_markup : option Markup).

(** ** The user and report store *)

Inductive Status : Set := NEW | ACCEPTED | REJECTED | CLOSED.

Definition status_name (s : Status) : string :=
  match s with
  | NEW => "NEW"
  | ACCEPTED => "ACCEPTED"
  | REJECTED => "REJECTED"
  | CLOSED => "CLOSED"
  end.

Record User : Type := {
  u_id : Z;
  u_last_name : option string;
  u_first_name : option string;
  u_username : option string
}.

Record ReportRecord : Type := {
  r_id : Z;
  r_user_id : Z;
  r_text : option string;
  r_timestamp : Z;
  r_status : Status;
  r_link : option string
}.

Record Store : Type := {
  users : list User;
  reports : list ReportRecord
}.

Definition empty_store : Store := {| users := []; reports := [] |}.

(** The state the handlers act on: the store, the clock read when a report
    is created, and the calls issued so far, oldest first. *)
Record World : Type := {
  db : Store;
  now : Z;
  calls : list ApiCall
}.

Definition init_world : World := {| db := empty_store; now := 0; calls := [] |}.

(** The world after one more call. *)
Definition replied (w : World) (c : ApiCall) : World :=
  {| db := db w; now := now w; calls := calls w ++ [c] |}.

(** ** The handler monad *)

Definition Handler (A : Type) : Type := World -> Outcome A * World.

Definition ret {A} (a : A) : Handler A := fun w => (Returned a, w).

Definition raise {A} (e : Exn) : Handler A := fun w => (Raised e, w).

Definition bind {A B} (m : Handler A) (k : A -> Handler B) : Handler B :=
  fun w =>
    match m w with
    | (Returned a, w') => k a w'
    | (Raised e, w') => (Raised e, w')
    end.

Declare Scope handler_scope.
Delimit Scope handler_scope with handler.
Notation "x <- m ;; k" := (bind m (fun x => k))
  (at level 61, m at next level, right associativity) : handler_scope.
Notation "m ;; k" := (bind m (fun _ => k))
  (at level 61, right associativity) : handler_scope.
Open Scope handler_scope.

Definition void {A} (m : Handler A) : Handler unit := m ;; ret tt.

Definition get_store : Handler Store := fun w => (Returned (db w), w).

Definition put_store (s : Store) : Handler unit :=
  fun w => (Returned tt, {| db := s; now := now w; calls := calls w |}).

Definition get_now : Handler Z := fun w => (Returned (now w), w).

Definition api (c : ApiCall) : Handler unit :=
  fun w => (Returned tt, {| db := db w; now := now w; calls := calls w ++ [c] |}).

(** [x[i]] on a list. *)
Definition index {A} (l : list A) (i : nat) : Handler A :=
  match nth_error l i with
  | Some x => ret x
  | None => raise IndexError
  end.

(** [message.text.<method>]: the attribute access fails on [None]. *)
Definition text_of (m : Message) : Handler string :=
  match msg_text m with
  | Some t => ret t
  | None => raise AttributeError
  end.

(** [message.text[1:]]: [None] is not subscriptable. *)
Definition text_tail (m : Message) : Handler string :=
  match msg_text m with
  | Some t => ret (Py.tail t)
  | None => raise TypeError
  end.

(** What an f-string prints for an optional text. *)
Definition show_opt (o : option string) : string :=
  match o with
  | Some s => s
  | None => "None"
  end.

(** ** [models]: users and reports *)

Section Models.
Context {B : Builtins}.

(** Modelled from the spec: the store of [models] ([User], [ReportRecord],
    [get_db], [close_db]) is not part of [tg.py].  A key selects the report
    whose id it denotes; a token that is not a numeral selects none. *)
Definition key_id (k : Key) : option Z :=
  match k with
  | KInt z => Some z
  | KStr s => int s
  end.

(** What [{id}] prints in an f-string. *)
Definition show_key (k : Key) : string :=
  match k with
  | KInt z => str z
  | KStr s => s
  end.

(** Modelled from the spec: acquiring and releasing the store leaves its
    content as it is. *)
Definition get_db : Handler unit := ret tt.

Definition close_db : Handler unit := ret tt.

(** Modelled from the spec: [User.get_or_create] returns the stored user
    with this id, or stores exactly one new user. *)
Definition User_get_or_create (id : Z) (last first uname : option string)
  : Handler User :=
  s <- get_store ;;
  match find (fun u => u_id u =? id) (users s) with
  | Some u => ret u
  | None =>
      let u := {| u_id := id; u_last_name := last; u_first_name := first;
                  u_username := uname |} in
      put_store {| users := users s ++ [u]; reports := reports s |} ;;
      ret u
  end.

Definition next_report_id (s : Store) : Z :=
  1 + fold_right (fun r m => Z.max (r_id r) m) 0 (reports s).

(** Modelled from the spec: [ReportRecord.new] followed by [db.add] and
    [db.commit] stores a report owned by the user, in status [NEW] and
    without link, under an id the store assigns. *)
Definition ReportRecord_new (user : User) (text : option string)
  : Handler ReportRecord :=
  t <- get_now ;;
  ret {| r_id := 0; r_user_id := u_id user; r_text := text; r_timestamp := t;
         r_status := NEW; r_link := None |}.

Definition db_add_commit (rec : ReportRecord) : Handler unit :=
  s <- get_store ;;
  let rec' := {| r_id := next_report_id s; r_user_id := r_user_id rec;
                 r_text := r_text rec; r_timestamp := r_timestamp rec;
                 r_status := r_status rec; r_link := r_link rec |} in
  put_store {| users := users s; reports := reports s ++ [rec'] |}.

(** Modelled from the spec: [ReportRecord.get_reports] lists the reports of
    one status bucket, named by the callback token, in the order of the
    store. *)
Definition ReportRecord_get_reports (status_token : string)
  : Handler (list ReportRecord) :=
  s <- get_store ;;
  ret (filter (fun r => ("report_status_" ++ status_name (r_status r)
                         =? status_token)%string) (reports s)).

Definition lookup_report (s : Store) (id : Z) : option ReportRecord :=
  find (fun r => r_id r =? id) (reports s).

(** Modelled from the spec: [ReportRecord.get_report_by_id]. *)
Definition ReportRecord_get_report_by_id (id : Key)
  : Handler (option ReportRecord) :=
  s <- get_store ;;
  ret match key_id id with
      | Some z => lookup_report s z
      | None => None
      end.

(** Modelled from the spec: the legal transitions are [NEW] to [ACCEPTED]
    (with a link), [NEW] to [REJECTED] and [ACCEPTED] to [CLOSED]; every
    other attempt leaves status and link as they are. *)
Definition transition (action : string) (link : option string)
  (r : ReportRecord) : ReportRecord :=
  let set st lk :=
    {| r_id := r_id r; r_user_id := r_user_id r; r_text := r_text r;
       r_timestamp := r_timestamp r; r_status := st; r_link := lk |} in
  match r_status r, link with
  | NEW, Some l =>
      if (action =? "accept_report")%string then set ACCEPTED (Some l)
      else if (action =? "reject_report")%string then set REJECTED (r_link r)
      else r
  | NEW, None =>
      if (action =? "reject_report")%string then set REJECTED (r_link r)
      else r
  | ACCEPTED, _ =>
      if (action =? "close_report")%string then set CLOSED (r_link r)
      else r
  | _, _ => r
  end.

Definition change_status_store (s : Store) (z : Z) (action : string)
  (link : option string) : Store :=
  {| users := users s;
     reports := map (fun r => if r_id r =? z then transition action link r
                              else r) (reports s) |}.

(** Modelled from the spec: [ReportRecord.change_status]. *)
Definition ReportRecord_change_status (id : Key) (action : string)
  (link : option string) : Handler unit :=
  s <- get_store ;;
  match key_id id with
  | Some z => put_store (change_status_store s z action link)
  | None => ret tt
  end.

End Models.

(** ** The handlers of [tg.py]

    The decorator [log_function_call] records the call of a handler and its
    result and passes both through; it is left out. *)

Section Handlers.
Context {B : Builtins} {C : Config} {R : Rings} {L : MatrixLib}
  {M : Limits} {N : NumberTheory} {E : Evaluators} {G : Git}.

(** [bot.send_message] answers the message sent; the handlers only use its
    chat, which is the chat written to. *)
Definition send_message (chat : Z) (text : string) (parse_mode : option string)
  (reply_markup : option Markup) : Handler Z :=
  api (SendMessage chat (Some text) parse_mode reply_markup) ;; ret chat.

Definition reply_to (m : Message) (text : string) (parse_mode : option string)
  (reply_markup : option Markup) : Handler unit :=
  api (ReplyTo m text parse_mode reply_markup).

Definition register_next_step_handler (chat : Z) (k : Step) : Handler unit :=
  api (RegisterNextStepHandler chat k).

Definition menu : Markup :=
  ReplyKeyboardMarkup
    ["/help"; "/det"; "/ref"; "/m_inverse"; "/factorize"; "/euclid";
     "/idempotents"; "/nilpotents"; "/inverse"; "/logic"; "/calc"; "/about"].

Definition hide_menu : Markup := ReplyKeyboardRemove.

Definition get_report_menu (user_id : Z) : Markup :=
  InlineKeyboardMarkup
    (("Report a bug!", "report") ::
     (if Py.mem_int user_id ADMINS then [("View errors", "view_reports")]
      else [])).

Definition get_cancel_menu : Markup :=
  InlineKeyboardMarkup [("Back", "cancel")].

Definition get_type_report_menu (user_id : Z) : Markup :=
  InlineKeyboardMarkup
    (if Py.mem_int user_id ADMINS
     then [("New bugs", "report_status_NEW");
           ("Accepted mistakes", "report_status_ACCEPTED");
           ("Rejected errors", "report_status_REJECTED");
           ("Closed Bugs", "report_status_CLOSED");
           ("Back", "back_button")]
     else []).

(** The function falls off its end, and so answers [None], when the guard
    fails. *)
Definition get_admin_menu (call : CallbackQuery) : option Markup :=
  if negb (Py.mem_str (call_data call)
             ["report_status_CLOSED"; "report_status_REJECTED"])
     && Py.mem_int (tg_id (call_from call)) ADMINS
  then Some (InlineKeyboardMarkup
               ((if negb (Py.mem_str (call_data call) ["report_status_ACCEPTED"])
                 then [("accept mistake", "accept_report")] else [])
                ++ [("Reject error", "reject_report");
                    ("close error", "close_report")])%list)
  else None.

Definition start_message (message : Message) : Handler unit :=
  let send_mess :=
    "<b>Hello"
    ++ match tg_first_name (msg_from message) with
       | Some f => ", " ++ f
       | None => ""
       end
    ++ "!</b>" ++ Py.nl
    ++ "Use the keyboard or commands to call the desired chip" ++ Py.nl
    ++ "/help - call for help" ++ Py.nl
    ++ "/about - bot information" ++ Py.nl
    ++ "Our channel: " ++ CHANNEL_LINK ++ Py.nl in
  send_message (msg_chat_id message) send_mess (Some "html") (Some menu) ;;
  get_db ;;
  User_get_or_create (tg_id (msg_from message)) (tg_last_name (msg_from message))
    (tg_first_name (msg_from message)) (tg_username (msg_from message)) ;;
  close_db.

Definition help_text : string :=
  "<b>Matrix operations</b>" ++ Py.nl
  ++ "/det - determinant of a matrix." ++ Py.nl
  ++ "/ref - row echelon form of a matrix (upper triangular)." ++ Py.nl
  ++ "/m_inverse - inverse of a matrix." ++ Py.nl
  ++ Py.nl ++ "<b>Number theory and discrete mathematics</b>" ++ Py.nl
  ++ "/factorize - prime factorization of a natural number." ++ Py.nl
  ++ "/euclid - GCD of two numbers and solution of Diophantine equation."
  ++ Py.nl
  ++ "/idempotents - idempotent elements in Z/n." ++ Py.nl
  ++ "/nilpotents - nilpotent elements in Z/n." ++ Py.nl
  ++ "/inverse - inverse element in Z/n." ++ Py.nl
  ++ "/logic - truth table of an expression." ++ Py.nl
  ++ Py.nl ++ "<b>Calculators</b>" ++ Py.nl
  ++ "/calc - calculator for mathematical expressions." ++ Py.nl
  ++ Py.nl ++ "<b>About this bot</b> /about" ++ Py.nl.

Definition send_help (message : Message) : Handler unit :=
  let inline_menu := get_report_menu (tg_id (msg_from message)) in
  void (send_message (msg_chat_id message) help_text (Some "html")
          (Some inline_menu)).

(** *** Matrices *)

Definition det (message : Message) : Handler unit :=
  m <- send_message (msg_chat_id message) "Enter the matrix: (in one message)"
         None (Some hide_menu) ;;
  register_next_step_handler m (matrix_input_step "det").

Definition calc_det (message : Message) (action : string) (matrix : Matrix)
  : Handler (option string) :=
  match matrix_det matrix with
  | Raised SquareMatrixRequired =>
      reply_to message
        "Determinant cannot be calculated for a non-square matrix!" None
        (Some menu) ;;
      ret None
  | Raised e => raise e
  | Returned result =>
      let answer := str_scalar result in
      reply_to message answer None (Some menu) ;;
      ret (Some answer)
  end.

Definition ref_input (message : Message) : Handler unit :=
  m <- send_message (msg_chat_id message) "Enter the matrix: (in one message)"
         None (Some hide_menu) ;;
  register_next_step_handler m (matrix_input_step "ref").

Definition calc_ref (message : Message) (action : string) (matrix : Matrix)
  : Handler (option string) :=
  match matrix_ref matrix with
  | Raised e => raise e
  | Returned result =>
      let answer :=
        "The matrix in row echelon form:" ++ Py.nl
        ++ "<code>" ++ str_matrix result ++ "</code>" in
      send_message (msg_chat_id message) answer (Some "html") (Some menu) ;;
      ret (Some answer)
  end.

Definition inv_input (message : Message) : Handler unit :=
  m <- send_message (msg_chat_id message) "Enter the matrix: (in one message)"
         None (Some hide_menu) ;;
  register_next_step_handler m (matrix_input_step "m_inverse").

Definition calc_inv (message : Message) (action : string) (matrix : Matrix)
  : Handler (option string) :=
  match matrix_inverse matrix with
  | Raised NonInvertibleMatrix =>
      send_message (msg_chat_id message) "Inverse matrix does not exist!" None
        (Some menu) ;;
      ret None
  | Raised e => raise e
  | Returned result =>
      let answer :=
        "Inverse matrix:" ++ Py.nl
        ++ "<code>" ++ str_matrix result ++ "</code>" in
      send_message (msg_chat_id message) answer (Some "html") (Some menu) ;;
      ret (Some answer)
  end.

(** The handlers [action_mapper] holds. *)
Definition MatrixAction : Type :=
  Message -> string -> Matrix -> Handler (option string).

Definition action_mapper (action : string) : option MatrixAction :=
  if (action =? "det")%string then Some calc_det
  else if (action =? "ref")%string then Some calc_ref
  else if (action =? "m_inverse")%string then Some calc_inv
  else None.

(** A comprehension: the first conversion that fails ends it. *)
Fixpoint comprehension {X Y} (f : X -> option Y) (l : list X) : option (list Y) :=
  match l with
  | [] => Some []
  | x :: l' =>
      match f x with
      | None => None
      | Some y =>
          match comprehension f l' with
          | None => None
          | Some ys => Some (y :: ys)
          end
      end
  end.

(** The rows of a matrix text, as tokens. *)
Definition rows_of (text : string) : list (list string) :=
  map Py.split (Py.lines text).

(** Some entry of the text is refused by [float]. *)
Definition not_numeric (text : string) : Prop :=
  exists row x, In row (rows_of text) /\ In x row /\ float x = None.

(** [[[float(x) for x in row.split()] for row in text.split("\n")]] *)
Definition parse_rows (text : string) : option (list (list float_t)) :=
  comprehension (fun row => comprehension float (Py.split row)) (Py.lines text).

Definition rectangular_error : string :=
  "Mismatch in row or column sizes. The matrix must be <b>rectangular</b>.".

Definition numeric_error : string :=
  "Please enter a <b>numeric</b> square matrix.".

Definition limit_error : string :=
  "The matrix input has a limitation of " ++ str MAX_MATRIX ++ "x"
  ++ str MAX_MATRIX ++ "!".

Definition matrix_input (message : Message) (action : string) : Handler unit :=
  text <- text_of message ;;
  match parse_rows text with
  | None => reply_to message numeric_error (Some "html") (Some menu)
  | Some lst =>
      match from_list lst with
      | Raised SizesMatchError =>
          reply_to message rectangular_error (Some "html") (Some menu)
      | Raised ValueError =>
          reply_to message numeric_error (Some "html") (Some menu)
      | Raised e => raise e
      | Returned matrix =>
          if matrix_n matrix >? MAX_MATRIX
          then reply_to message limit_error None (Some menu)
          else match action_mapper action with
               | Some next_handler => void (next_handler message action matrix)
               | None => raise KeyError
               end
      end
  end.

(** *** Truth tables *)

Definition logic_input (message : Message) : Handler unit :=
  m <- send_message (msg_chat_id message) "Enter a logical expression:"
         (Some "html") (Some hide_menu) ;;
  register_next_step_handler m logic_output_step.

(** [print] of the cells to the buffer, two blanks between them. *)
Definition print_line (cells : list string) : string :=
  Py.join "  " cells ++ Py.nl.

Definition logic_table (table : list (list cell)) (variables : list variable)
  : string :=
  print_line (map str_variable variables ++ ["F"])%list
  ++ String.concat "" (map (fun row => print_line (map str_cell row)) table).

Definition logic_output (message : Message) : Handler (option string) :=
  let chat := msg_chat_id message in
  match build_table (msg_text message) with
  | inl (table, variables) =>
      let answer := "<code>" ++ logic_table table variables ++ "</code>" in
      send_message chat answer (Some "html") (Some menu) ;;
      ret (Some answer)
  | inr InvalidSyntax =>
      send_message chat "Syntax error in the expression" None (Some menu) ;;
      ret None
  | inr InvalidName =>
      send_message chat "Unknown variable encountered" None (Some menu) ;;
      ret None
  | inr InvalidArguments =>
      send_message chat "Incorrect usage of the function" None (Some menu) ;;
      ret None
  | inr CalculationLimitError =>
      send_message chat "Reached the limit of computation complexity" None
        (Some menu) ;;
      ret None
  | inr (BuiltinError ValueError) =>
      send_message chat "Failed to recognize the value. Allowed values: 0, 1"
        None (Some menu) ;;
      ret None
  | inr (BuiltinError e) => raise e
  end.

(** *** Rings *)

Definition ring_input (message : Message) : Handler unit :=
  m <- send_message (msg_chat_id message) "Enter the ring modulus:" None None ;;
  command <- text_tail message ;;
  register_next_step_handler m (ring_output_step command).

Definition limitation : string :=
  "Limitation: 2 <= n < " ++ format_E MAX_MODULO.

Definition ring_output (message : Message) (command : string)
  : Handler (option string) :=
  text <- text_of message ;;
  match int (Py.strip text) with
  | None =>
      send_message (msg_chat_id message) "Input data error" None (Some menu) ;;
      ret None
  | Some n =>
      if (n >=? MAX_MODULO) || (n <? 2)
      then send_message (msg_chat_id message) limitation None (Some menu) ;;
           ret None
      else
        let chosen :=
          if (command =? "idempotents")%string
          then Some (map (fun p => str_row (fst p) ++ " -> " ++ str (snd p))
                         (find_idempotents n), "Idempotents")
          else if (command =? "nilpotents")%string
          then Some (map str (find_nilpotents n), "Nilpotents")
          else None in
        match chosen with
        | None => ret None
        | Some (result, title) =>
            let len := Z.of_nat (List.length result) in
            let s := if len >? MAX_ELEMENTS
                     then "There are too many elements to display..."
                     else Py.join Py.nl result in
            let answer :=
              "<b> " ++ title ++ " в Z/" ++ str n ++ "</b>" ++ Py.nl
              ++ "Quantity: " ++ str len ++ Py.nl ++ Py.nl
              ++ s ++ Py.nl in
            send_message (msg_chat_id message) answer (Some "html") (Some menu) ;;
            ret (Some answer)
        end
  end.

Definition inverse_input_ring (message : Message) : Handler unit :=
  m <- send_message (msg_chat_id message) "Enter the ring modulus:" None None ;;
  register_next_step_handler m inverse_input_element_step.

Definition inverse_input_element (message : Message) : Handler unit :=
  text <- text_of message ;;
  match int (Py.strip text) with
  | None =>
      void (send_message (msg_chat_id message) "Input data error" None (Some menu))
  | Some n =>
      if (n >=? MAX_MODULO) || (n <? 2)
      then void (send_message (msg_chat_id message) limitation None (Some menu))
      else
        m <- send_message (msg_chat_id message)
               "Enter the element for which you want to find the inverse:"
               None None ;;
        register_next_step_handler m (inverse_output_step n)
  end.

(** [except ArithmeticError] also catches its subclass. *)
Definition is_ArithmeticError (e : Exn) : bool :=
  match e with
  | ArithmeticError | ZeroDivisionError => true
  | _ => false
  end.

Definition inverse_output (message : Message) (modulo : Z)
  : Handler (option string) :=
  text <- text_of message ;;
  match int (Py.strip text) with
  | None =>
      send_message (msg_chat_id message) "Input data error" None (Some menu) ;;
      ret None
  | Some n0 =>
      if modulo =? 0 then raise ZeroDivisionError
      else
        let n := n0 mod modulo in
        match find_inverse n modulo with
        | Raised e =>
            if is_ArithmeticError e
            then
              let answer :=
                "У " ++ str n ++ " <b>There is no inverse in the ring Z./"
                ++ str modulo ++ Py.nl
                ++ "As the GCD (Greatest Common Divisor)(" ++ str n ++ ", "
                ++ str modulo ++ ") > 1" in
              send_message (msg_chat_id message) answer (Some "html") None ;;
              ret (Some answer)
            else raise e
        | Returned result =>
            let answer := str result in
            send_message (msg_chat_id message) answer None None ;;
            ret (Some answer)
        end
  end.

(** *** Factorisation, Euclid and the calculator *)

Definition factorize_input (message : Message) : Handler unit :=
  m <- send_message (msg_chat_id message) "Enter a number:" None None ;;
  register_next_step_handler m factorize_output_step.

Definition factorize_range : string :=
  "Factorization is available for positive integers n: 2 <= n <= "
  ++ format_E FACTORIZE_MAX.

Definition factorize_output (message : Message) : Handler (option string) :=
  text <- text_of message ;;
  match int (Py.strip text) with
  | None =>
      send_message (msg_chat_id message) "Input data error" None (Some menu) ;;
      ret None
  | Some n =>
      if (n <? 2) || (n >? FACTORIZE_MAX)
      then send_message (msg_chat_id message) factorize_range None None ;;
           ret None
      else
        let fn := factorize n in
        let answer := str n ++ " = " ++ factorize_str fn in
        send_message (msg_chat_id message) answer None None ;;
        ret (Some answer)
  end.

Definition euclid_input (message : Message) : Handler unit :=
  m <- send_message (msg_chat_id message)
         "Enter two numbers separated by a space:" None None ;;
  register_next_step_handler m euclid_output_step.

(** [a, b = map(int, fields)]: the fields are converted as the unpacking
    asks for them; a field [int] refuses, a missing field and a field too
    many all raise [ValueError]. *)
Definition unpack_two_ints (fields : list string) : option (Z * Z) :=
  match fields with
  | [] => None
  | fa :: rest =>
      match int fa with
      | None => None
      | Some a =>
          match rest with
          | [] => None
          | fb :: rest' =>
              match int fb with
              | None => None
              | Some b =>
                  match rest' with
                  | [] => Some (a, b)
                  | _ :: _ => None
                  end
              end
          end
      end
  end.

Definition euclid_answer (a b d x y : Z) : string :=
  "GCD (Greatest Common Divisor)(" ++ str a ++ ", " ++ str b ++ ") = " ++ str d
  ++ Py.nl ++ Py.nl
  ++ "<u>Equation solution:</u>" ++ Py.nl
  ++ str a ++ "*x + " ++ (if b >=? 0 then str b else "(" ++ str b ++ ")")
  ++ "*y <b>= " ++ str d ++ "</b>" ++ Py.nl
  ++ "x = " ++ str x ++ Py.nl
  ++ "y = " ++ str y ++ Py.nl ++ Py.nl
  ++ "<u>Attention</u>" ++ Py.nl
  ++ "<b>Pay attention to the form of the equation!</b>" ++ Py.nl
  ++ "The equation of the form ax + by = GCD(a, b) is being solved!".

Definition euclid_output (message : Message) : Handler (option string) :=
  text <- text_of message ;;
  match unpack_two_ints (Py.split_on " "%char (Py.strip text)) with
  | None =>
      send_message (msg_chat_id message) "Input data error" None (Some menu) ;;
      ret None
  | Some (a, b) =>
      let '(d, x, y) := ext_gcd a b in
      let answer := euclid_answer a b d x y in
      send_message (msg_chat_id message) answer (Some "html") None ;;
      ret (Some answer)
  end.

Definition calc_input (message : Message) : Handler unit :=
  m <- send_message (msg_chat_id message) "Enter the expression:" (Some "html")
         None ;;
  register_next_step_handler m calc_output_step.

Definition calc_output (message : Message) : Handler (option string) :=
  let chat := msg_chat_id message in
  match safe_eval (msg_text message) with
  | inl v =>
      let answer := str_value v in
      send_message chat answer (Some "html") (Some menu) ;;
      ret (Some answer)
  | inr InvalidSyntax =>
      send_message chat "Syntax error in the expression" None (Some menu) ;;
      ret None
  | inr InvalidName =>
      send_message chat "Unknown variable encountered" None (Some menu) ;;
      ret None
  | inr InvalidArguments =>
      send_message chat "Incorrect usage of function" None None ;;
      ret None
  | inr CalculationLimitError =>
      send_message chat "Reached the limit of computation complexity" None
        (Some menu) ;;
      ret None
  | inr (BuiltinError ZeroDivisionError) =>
      send_message chat "During execution, division by zero was encountered"
        None (Some menu) ;;
      ret None
  | inr (BuiltinError ArithmeticError) =>
      send_message chat "Arithmetic error" None (Some menu) ;;
      ret None
  | inr (BuiltinError ValueError) =>
      send_message chat "Failed to recognize the value" None (Some menu) ;;
      ret None
  | inr (BuiltinError e) => raise e
  end.

(** *** Broadcast *)

Fixpoint for_each {A} (l : list A) (body : A -> Handler unit) : Handler unit :=
  match l with
  | [] => ret tt
  | x :: l' => body x ;; for_each l' body
  end.

Definition broadcast_input (message : Message) : Handler unit :=
  if negb (Py.mem_int (tg_id (msg_from message)) ADMINS) then ret tt
  else
    m <- send_message (msg_chat_id message) "Message for mailing:" None None ;;
    register_next_step_handler m broadcast_step.

(** Deliveries are taken to succeed, as everywhere in this model, so no
    [ApiTelegramException] is counted. *)
Definition broadcast (message : Message) : Handler unit :=
  get_db ;;
  s <- get_store ;;
  let blocked_count := 0 in
  for_each (users s) (fun user =>
    api (SendMessage (u_id user) (msg_text message) None None)) ;;
  send_message (msg_chat_id message)
    ("Mailing completed successfully!" ++ Py.nl
     ++ "The mailing was not received. " ++ str blocked_count) None None ;;
  close_db.

(** *** About *)

(** [version] is the first tag found on the head commit; a tag object is
    true, so the hash stands in only when there is none. *)
Definition send_about (message : Message) : Handler unit :=
  let version_warning :=
    match head_tags with
    | version :: _ => (str_tag version, "")
    | [] => (head_hexsha, " (<u>Unstable.</u>)")
    end in
  let version := fst version_warning in
  let warning := snd version_warning in
  void (send_message (msg_chat_id message)
          ("Version." ++ warning ++ ": <b>" ++ version ++ "</b>" ++ Py.nl
           ++ "Our channel.: " ++ CHANNEL_LINK ++ Py.nl
           ++ Py.nl ++ "Copyright (C) 2023 @hizalhaziq" ++ Py.nl
           ++ "GitHub: " ++ GITHUB_LINK ++ Py.nl
           ++ "<b>Under GNU-GPL 2.0-or-later license</b>")
          (Some "html") None).

(** *** Reports *)

Definition callback_inline (call : CallbackQuery) : Handler unit :=
  let mk := get_cancel_menu in
  m <- send_message (msg_chat_id (call_message call))
         "Please describe specifically what went wrong." None (Some mk) ;;
  register_next_step_handler m report_handling_step.

Definition report_handling (message : Message) : Handler unit :=
  get_db ;;
  user <- User_get_or_create (tg_id (msg_from message))
            (tg_last_name (msg_from message)) (tg_first_name (msg_from message))
            (tg_username (msg_from message)) ;;
  rec <- ReportRecord_new user (msg_text message) ;;
  db_add_commit rec ;;
  close_db ;;
  void (send_message (msg_chat_id message)
          "Thank you for reporting the issues to me!" None None).

Definition cancel_report (call : CallbackQuery) : Handler unit :=
  api (DeleteMessage (msg_chat_id (call_message call))
         (msg_id (call_message call))) ;;
  api (ClearStepHandlerByChatId (msg_chat_id (call_message call))).

Definition choose_report_types (call : CallbackQuery) : Handler unit :=
  let mk := get_type_report_menu (tg_id (call_from call)) in
  api (EditMessageReplyMarkup (msg_chat_id (call_message call))
         (msg_id (call_message call)) (Some mk)).

Definition report_card (report : ReportRecord) : string :=
  "Report id: " ++ str (r_id report) ++ Py.nl
  ++ "User id: " ++ str (r_user_id report) ++ Py.nl
  ++ "Timestamp: " ++ str (r_timestamp report) ++ Py.nl ++ Py.nl
  ++ "Problem statement:" ++ Py.nl ++ show_opt (r_text report) ++ Py.nl ++ Py.nl
  ++ "Status: <b>" ++ status_name (r_status report) ++ "</b>" ++ Py.nl
  ++ "Link: " ++ show_opt (r_link report).

Definition list_reports (call : CallbackQuery) : Handler unit :=
  get_db ;;
  reports <- ReportRecord_get_reports (call_data call) ;;
  close_db ;;
  let mk := get_admin_menu call in
  for_each reports (fun report =>
    void (send_message (msg_chat_id (call_message call)) (report_card report)
            (Some "html") mk)).

Definition change_report_status (call : CallbackQuery) : Handler unit :=
  get_db ;;
  text <- text_of (call_message call) ;;
  tok <- index (Py.split text) 2 ;;
  let id := KStr tok in
  (if (call_data call =? "accept_report")%string
   then m <- send_message (msg_chat_id (call_message call))
               "Provide a link to the GitHub issue, please." None None ;;
        register_next_step_handler m (link_handling_step id)
   else ret tt) ;;
  (if (call_data call =? "close_report")%string
   then found <- ReportRecord_get_report_by_id id ;;
        match found with
        | None => raise AttributeError
        | Some report =>
            if (status_name (r_status report) =? "ACCEPTED")%string
            then ReportRecord_change_status id (call_data call) None ;;
                 void (send_message (msg_chat_id (call_message call))
                         "The issue has been closed." None None)
            else void (send_message (msg_chat_id (call_message call))
                         "The issue has not been confirmed yet!" None None)
        end
   else ret tt) ;;
  (if (call_data call =? "reject_report")%string
   then ReportRecord_change_status id (call_data call) None ;;
        void (send_message (msg_chat_id (call_message call))
                "The issue has been rejected." None None)
   else ret tt) ;;
  close_db.

Definition link_question (text : option string) : string :=
  "<b>Is the link provided correct?</b>" ++ Py.nl
  ++ "<b>Link:</b> " ++ show_opt text.

Definition link_handling (message : Message) (id : Key) : Handler unit :=
  let mk := InlineKeyboardMarkup
              [("Confirm", "accept_link " ++ show_key id);
               ("Reject", "reject_link " ++ show_key id)] in
  void (send_message (msg_chat_id message) (link_question (msg_text message))
          (Some "html") (Some mk)).

Definition accept_link (call : CallbackQuery) : Handler unit :=
  get_db ;;
  tok <- index (Py.split (call_data call)) 1 ;;
  id <- match int tok with
        | Some z => ret z
        | None => raise ValueError
        end ;;
  cmd <- index (Py.split (call_data call)) 0 ;;
  (if (cmd =? "accept_link")%string
   then text <- text_of (call_message call) ;;
        line <- index (Py.lines text) 1 ;;
        link <- index (Py.split line) 1 ;;
        ReportRecord_change_status (KInt id) "accept_report" (Some link) ;;
        void (send_message (msg_chat_id (call_message call))
                "The issue has been confirmed." None None)
   else send_message (msg_chat_id (call_message call))
          "Please provide the link again." None None ;;
        register_next_step_handler (msg_chat_id (call_message call))
          (link_handling_step (KInt id))) ;;
  close_db.

Definition back_func (call : CallbackQuery) : Handler unit :=
  let mk := get_report_menu (tg_id (call_from call)) in
  api (EditMessageReplyMarkup (msg_chat_id (call_message call))
         (msg_id (call_message call)) (Some mk)).

(** ** Updates *)

(** The callback filters, in the order the handlers are declared.  The
    filter of [accept_link] indexes the tokens of the data and fails on data
    without a token. *)
Definition on_callback (call : CallbackQuery) : Handler unit :=
  let data := call_data call in
  if (data =? "report")%string then callback_inline call
  else if (data =? "cancel")%string then cancel_report call
  else if (data =? "view_reports")%string then choose_report_types call
  else if Py.mem_str data ["report_status_NEW"; "report_status_REJECTED";
                           "report_status_ACCEPTED"; "report_status_CLOSED"]
  then list_reports call
  else if Py.mem_str data ["accept_report"; "reject_report"; "close_report"]
  then change_report_status call
  else
    cmd <- index (Py.split data) 0 ;;
    if Py.mem_str cmd ["accept_link"; "reject_link"] then accept_link call
    else if (data =? "back_button")%string then back_func call
    else ret tt.

(** The commands of the message handlers, in the order of [tg.py]. *)
Inductive Command : Set :=
| start | cmd_help | cmd_det | cmd_ref | cmd_m_inverse | cmd_logic
| cmd_idempotents | cmd_nilpotents | cmd_inverse | cmd_factorize | cmd_euclid
| cmd_calc | cmd_broadcast | cmd_bc | cmd_about.

Definition on_command (c : Command) (message : Message) : Handler unit :=
  match c with
  | start => start_message message
  | cmd_help => send_help message
  | cmd_det => det message
  | cmd_ref => ref_input message
  | cmd_m_inverse => inv_input message
  | cmd_logic => logic_input message
  | cmd_idempotents | cmd_nilpotents => ring_input message
  | cmd_inverse => inverse_input_ring message
  | cmd_factorize => factorize_input message
  | cmd_euclid => euclid_input message
  | cmd_calc => calc_input message
  | cmd_broadcast | cmd_bc => broadcast_input message
  | cmd_about => send_about message
  end.

(** A registered step consumes a message. *)
Definition on_next_step (k : Step) (message : Message) : Handler unit :=
  match k with
  | matrix_input_step action => matrix_input message action
  | ring_output_step command => void (ring_output message command)
  | inverse_input_element_step => inverse_input_element message
  | inverse_output_step modulo => void (inverse_output message modulo)
  | broadcast_step => broadcast message
  | report_handling_step => report_handling message
  | link_handling_step id => link_handling message id
  | logic_output_step => void (logic_output message)
  | factorize_output_step => void (factorize_output message)
  | euclid_output_step => void (euclid_output message)
  | calc_output_step => void (calc_output message)
  end.

Inductive Update : Type :=
| CommandUpdate (c : Command) (message : Message)
| NextStepUpdate (k : Step) (message : Message)
| CallbackUpdate (call : CallbackQuery).

Definition handle (u : Update) : Handler unit :=
  match u with
  | CommandUpdate c message => on_command c message
  | NextStepUpdate k message => on_next_step k message
  | CallbackUpdate call => on_callback call
  end.

(** One turn of the update loop.  The clock moves freely; an update runs its
    handler to its end or to the exception that stops it; and calls made
    elsewhere than in a handler only lengthen the log. *)
Inductive step : World -> World -> Prop :=
| step_clock w t :
    step w {| db := db w; now := t; calls := calls w |}
| step_update w u :
    step w (snd (handle u w))
| step_other w cs :
    step w {| db := db w; now := now w; calls := (calls w ++ cs)%list |}.

Inductive reachable : World -> Prop :=
| reachable_init : reachable init_world
| reachable_step w w' : reachable w -> step w w' -> reachable w'.

(** The updates processed one after the other. *)
Fixpoint run (us : list Update) (w : World) : World :=
  match us with
  | [] => w
  | u :: us' => run us' (snd (handle u w))
  end.

(** *** Vocabulary of the report workflow *)

Definition with_status (r : ReportRecord) (st : Status) (lk : option string)
  : ReportRecord :=
  {| r_id := r_id r; r_user_id := r_user_id r; r_text := r_text r;
     r_timestamp := r_timestamp r; r_status := st; r_link := lk |}.

(** The update is the callback carrying exactly this data. *)
Definition pressed (data : string) (u : Update) : Prop :=
  exists call, u = CallbackUpdate call /\ call_data call = data.

(** The update is the callback [<cmd> <id>] of the link confirmation. *)
Definition link_choice (cmd : string) (z : Z) (u : Update) : Prop :=
  exists call tok,
    u = CallbackUpdate call
    /\ nth_error (Py.split (call_data call)) 0 = Some cmd
    /\ nth_error (Py.split (call_data call)) 1 = Some tok
    /\ int tok = Some z.

(** What one update may do to the report [r] of id [z]. *)
Inductive report_change (u : Update) (z : Z) (r : ReportRecord)
  : ReportRecord -> Prop :=
| unchanged : report_change u z r r
| accepted l :
    r_status r = NEW -> link_choice "accept_link" z u ->
    report_change u z r (with_status r ACCEPTED (Some l))
| rejected :
    r_status r = NEW -> pressed "reject_report" u ->
    report_change u z r (with_status r REJECTED (r_link r))
| closed :
    r_status r = ACCEPTED -> pressed "close_report" u ->
    report_change u z r (with_status r CLOSED (r_link r)).

(** The updates of the accept sub-flow short of the confirmation: the
    admin asks to accept, sends a link, or rejects the echoed link. *)
Definition unconfirmed (u : Update) : Prop :=
  pressed "accept_report" u
  \/ (exists message id, u = NextStepUpdate (link_handling_step id) message)
  \/ (exists z, link_choice "reject_link" z u).

(** What one update may do to the store. *)
Inductive store_effect (u : Update) (s : Store) : Store -> Prop :=
| reports_kept s' :
    reports s' = reports s -> store_effect u s s'
| report_added s' rec :
    reports s' = (reports s ++ [rec])%list ->
    r_status rec = NEW -> r_link rec = None -> store_effect u s s'
| accept_committed z l :
    link_choice "accept_link" z u ->
    store_effect u s (change_status_store s z "accept_report" (Some l))
| reject_committed z :
    pressed "reject_report" u ->
    store_effect u s (change_status_store s z "reject_report" None)
| close_committed z :
    pressed "close_report" u ->
    store_effect u s (change_status_store s z "close_report" None).

(** The handler leaves the view [f] of the store as it found it. *)
Definition keeps {X A} (f : Store -> X) (h : Handler A) : Prop :=
  forall w, f (db (snd (h w))) = f (db w).

(** The link is set exactly in the statuses [ACCEPTED] and [CLOSED]. *)
Definition link_iff_accepted (r : ReportRecord) : Prop :=
  r_link r <> None <-> (r_status r = ACCEPTED \/ r_status r = CLOSED).

(** *** The callback filters one by one *)

Definition is_report (call : CallbackQuery) : Outcome bool :=
  Returned (call_data call =? "report")%string.

Definition is_cancel (call : CallbackQuery) : Outcome bool :=
  Returned (call_data call =? "cancel")%string.

Definition is_view_reports (call : CallbackQuery) : Outcome bool :=
  Returned (call_data call =? "view_reports")%string.

Definition is_report_status (call : CallbackQuery) : Outcome bool :=
  Returned (Py.mem_str (call_data call)
              ["report_status_NEW"; "report_status_REJECTED";
               "report_status_ACCEPTED"; "report_status_CLOSED"]).

Definition is_report_action (call : CallbackQuery) : Outcome bool :=
  Returned (Py.mem_str (call_data call)
              ["accept_report"; "reject_report"; "close_report"]).

(** [call.data.split()[0] in ("accept_link", "reject_link")] *)
Definition is_link_choice (call : CallbackQuery) : Outcome bool :=
  match nth_error (Py.split (call_data call)) 0 with
  | Some cmd => Returned (Py.mem_str cmd ["accept_link"; "reject_link"])
  | None => Raised IndexError
  end.

Definition is_back_button (call : CallbackQuery) : Outcome bool :=
  Returned (call_data call =? "back_button")%string.

(** The callback handlers with their filters, in the order of [tg.py]. *)
Definition callback_handlers
  : list ((CallbackQuery -> Outcome bool) * (CallbackQuery -> Handler unit)) :=
  [(is_report, callback_inline);
   (is_cancel, cancel_report);
   (is_view_reports, choose_report_types);
   (is_report_status, list_reports);
   (is_report_action, change_report_status);
   (is_link_choice, accept_link);
   (is_back_button, back_func)].

Definition accepts (call : CallbackQuery)
  (entry : (CallbackQuery -> Outcome bool) * (CallbackQuery -> Handler unit))
  : bool :=
  match fst entry call with
  | Returned true => true
  | _ => false
  end.

(** *** Vocabulary for the calls a handler issues *)

(** The handler only adds calls, and each call it adds satisfies [P]. *)
Definition emits {A} (P : ApiCall -> Prop) (h : Handler A) : Prop :=
  forall w, exists cs, calls (snd (h w)) = (calls w ++ cs)%list /\ Forall P cs.

Definition is_registration (c : ApiCall) : bool :=
  match c with
  | RegisterNextStepHandler _ _ => true
  | _ => false
  end.

Definition registrations (cs : list ApiCall) : list ApiCall :=
  filter is_registration cs.

Definition not_registration (c : ApiCall) : Prop := is_registration c = false.

(** The handler adds at most one registration, and for this chat. *)
Definition registers_once {A} (chat : Z) (h : Handler A) : Prop :=
  forall w, exists cs,
    calls (snd (h w)) = (calls w ++ cs)%list
    /\ (registrations cs = []
        \/ exists k, registrations cs = [RegisterNextStepHandler chat k]).

Definition update_chat (u : Update) : Z :=
  match u with
  | CommandUpdate _ message => msg_chat_id message
  | NextStepUpdate _ message => msg_chat_id message
  | CallbackUpdate call => msg_chat_id (call_message call)
  end.

(** A registration of [inverse_output] carries a modulus in range. *)
Definition modulus_in_range (c : ApiCall) : Prop :=
  match c with
  | RegisterNextStepHandler _ (inverse_output_step m) => 2 <= m < MAX_MODULO
  | _ => True
  end.

(** The updates whose handler can write to the store. *)
Definition writes (u : Update) : Prop :=
  (exists message, u = CommandUpdate start message)
  \/ (exists message, u = NextStepUpdate report_handling_step message)
  \/ pressed "reject_report" u
  \/ pressed "close_report" u
  \/ (exists z, link_choice "accept_link" z u).

(** The exceptions [calc_output] and [logic_output] answer with a
    message. *)
Definition caught_by_calc (e : EvalError) : bool :=
  match e with
  | BuiltinError ZeroDivisionError => true
  | BuiltinError ArithmeticError => true
  | BuiltinError ValueError => true
  | BuiltinError _ => false
  | _ => true
  end.

Definition caught_by_logic (e : EvalError) : bool :=
  match e with
  | BuiltinError ValueError => true
  | BuiltinError _ => false
  | _ => true
  end.

(** The callback data a keyboard offers. *)
Definition offered (mk : option Markup) : list string :=
  match mk with
  | Some (InlineKeyboardMarkup buttons) => map snd buttons
  | _ => []
  end.

(** The keyboard a call carries. *)
Definition markup_of (c : ApiCall) : option Markup :=
  match c with
  | SendMessage _ _ _ mk => mk
  | ReplyTo _ _ _ mk => mk
  | EditMessageReplyMarkup _ _ mk => mk
  | _ => None
  end.

(** Some callback handler accepts every callback carrying this data. *)
Definition has_handler (data : string) : Prop :=
  forall call, call_data call = data ->
  exists entry, In entry callback_handlers /\ accepts call entry = true.

(** Every button of the keyboard the call carries has a handler. *)
Definition live_buttons (c : ApiCall) : Prop :=
  forall d, In d (offered (markup_of c)) -> has_handler d.

(** A card is sent bare, without keyboard. *)
Definition bare_card (c : ApiCall) : Prop :=
  match c with
  | SendMessage _ _ _ mk => mk = None
  | _ => False
  end.

(** The handlers that answer with the text they return. *)
Definition answering_handlers (message : Message) (command : string)
  (modulo : Z) : list (Handler (option string)) :=
  [ring_output message command; inverse_output message modulo;
   factorize_output message; euclid_output message; calc_output message;
   logic_output message].

(** The text is made of non-blank characters, one at least. *)
Definition token (s : string) : Prop := Py.no_space s /\ s <> "".

End Handlers.

(** ** A sample environment

    Instances of the interfaces on which the handlers can be run: signed
    decimal numerals for [int] and [float], a small configuration, exhaustive
    search in Z/n, matrices of rationals as lists of rows, trial division,
    the extended Euclid algorithm, a calculator that reads a numeral or the
    quotient of two, the truth table of a lone variable, and a checkout
    without tag. *)

Module Sample.

Definition digits (n : Z) : string := NilZero.string_of_int (Z.to_int n).

Definition numeral (s : string) : option Z :=
  option_map Z.of_int (NilZero.int_of_string s).

(** [int(s)] on signed decimal numerals, blanks around them ignored; any
    other text is refused. *)
Definition int_dec (s : string) : option Z :=
  match Py.strip s with
  | String "+"%char (String "-"%char _) => None
  | String "+"%char s' => numeral s'
  | s' => numeral s'
  end.

Fixpoint zeros (n : nat) : string :=
  match n with
  | O => ""
  | S n' => "0" ++ zeros n'
  end.

Definition pad (width : nat) (s : string) : string :=
  zeros (width - String.length s) ++ s.

(** ["{:E}"] on an integer below 2^53: one digit, six decimals rounded half
    to even, and the exponent on two digits at least. *)
Definition format_E_dec (n : Z) : string :=
  let a := Z.abs n in
  let e := Z.of_nat (String.length (digits a)) - 1 in
  let scaled :=
    if e <=? 6 then (a * 10 ^ (6 - e), e)
    else
      let p := 10 ^ (e - 6) in
      let q := a / p in
      let r := a mod p in
      let q' := if (2 * r >? p) || ((2 * r =? p) && Z.odd q) then q + 1 else q in
      if q' =? 10 ^ 7 then (10 ^ 6, e + 1) else (q', e) in
  let m := pad 7 (digits (fst scaled)) in
  (if n <? 0 then "-" else "")
  ++ substring 0 1 m ++ "." ++ substring 1 6 m
  ++ "E+" ++ pad 2 (digits (snd scaled)).

#[export] Instance builtins : Builtins := {|
  float_t := Z;
  int := int_dec;
  float := int_dec;
  str := digits;
  format_E := format_E_dec
|}.

#[export] Instance config : Config := {|
  ADMINS := [1000];
  MAX_MATRIX := 8;
  MAX_MODULO := 1000000000;
  MAX_ELEMENTS := 101;
  CHANNEL_LINK := "https://t.me/math_bot"
|}.

Definition residues (n : Z) : list Z := map Z.of_nat (seq 0 (Z.to_nat n)).

Fixpoint number_from {A} (k : Z) (l : list A) : list (Z * A) :=
  match l with
  | [] => []
  | x :: l' => (k, x) :: number_from (k + 1) l'
  end.

Definition inverse_search (x n : Z) : Outcome Z :=
  match find (fun y => (x * y) mod n =? 1) (residues n) with
  | Some y => Returned y
  | None => Raised ArithmeticError
  end.

#[export] Instance rings : Rings := {|
  idem_row := Z;
  str_row := digits;
  find_idempotents := fun n =>
    number_from 0 (filter (fun x => (x * x) mod n =? x) (residues n));
  find_nilpotents := fun n =>
    filter (fun x => (x ^ n) mod n =? 0) (residues n);
  find_inverse := inverse_search
|}.

(** *** Matrices of rationals *)

Definition rational : Set := QArith_base.Q.

Definition of_Z (z : Z) : rational := QArith_base.inject_Z z.

Definition is_zero (q : rational) : bool :=
  QArith_base.Qeq_bool q (of_Z 0).

Definition show_rational (q : rational) : string :=
  let r := Qreduction.Qred q in
  match QArith_base.Qden r with
  | 1%positive => digits (QArith_base.Qnum r)
  | d => digits (QArith_base.Qnum r) ++ "/" ++ digits (Z.pos d)
  end.

Definition remove_at {A} (j : nat) (l : list A) : list A :=
  (firstn j l ++ skipn (S j) l)%list.

Definition sign (j : nat) : rational :=
  if Nat.even j then of_Z 1 else of_Z (-1).

(** The expansion along the first row. *)
Fixpoint det_rows (fuel : nat) (m : list (list rational)) : rational :=
  match fuel, m with
  | S fuel', row :: rest =>
      fold_right QArith_base.Qplus (of_Z 0)
        (map (fun j =>
                QArith_base.Qmult
                  (QArith_base.Qmult (sign j) (nth j row (of_Z 0)))
                  (det_rows fuel' (map (remove_at j) rest)))
             (seq 0 (List.length row)))
  | _, _ => of_Z 1
  end.

Definition is_square (m : list (list rational)) : bool :=
  forallb (fun row => Nat.eqb (List.length row) (List.length m)) m.

Definition det_of (m : list (list rational)) : Outcome rational :=
  if is_square m then Returned (Qreduction.Qred (det_rows (List.length m) m))
  else Raised SquareMatrixRequired.

(** The inverse by cofactors. *)
Definition inverse_of (m : list (list rational))
  : Outcome (list (list rational)) :=
  if is_square m then
    let n := List.length m in
    let d := det_rows n m in
    if is_zero d then Raised NonInvertibleMatrix
    else
      Returned
        (map (fun i =>
                map (fun j =>
                       Qreduction.Qred
                         (QArith_base.Qdiv
                            (QArith_base.Qmult (sign (i + j))
                               (det_rows (n - 1)
                                  (map (remove_at i) (remove_at j m))))
                            d))
                    (seq 0 n))
             (seq 0 n))
  else Raised SquareMatrixRequired.

(** The first row that does not start with zero, and the others. *)
Fixpoint take_pivot (rows : list (list rational))
  : option (list rational * list (list rational)) :=
  match rows with
  | [] => None
  | r :: rows' =>
      if is_zero (hd (of_Z 0) r)
      then match take_pivot rows' with
           | Some (p, others) => Some (p, r :: others)
           | None => None
           end
      else Some (r, rows')
  end.

(** The row [r] less [k] times the row [p]. *)
Definition row_sub (r p : list rational) (k : rational) : list rational :=
  map (fun ab =>
         Qreduction.Qred
           (QArith_base.Qminus (fst ab) (QArith_base.Qmult k (snd ab))))
      (combine r p).

(** Elimination below the pivots, column by column. *)
Fixpoint echelon (fuel : nat) (rows : list (list rational))
  : list (list rational) :=
  match fuel with
  | O => rows
  | S fuel' =>
      if forallb (fun r => match r with [] => true | _ => false end) rows
      then rows
      else
        match take_pivot rows with
        | None => map (cons (of_Z 0)) (echelon fuel' (map (@List.tl _) rows))
        | Some (p, others) =>
            p :: map (cons (of_Z 0))
                   (echelon fuel'
                      (map (fun r =>
                              List.tl
                                (row_sub r p
                                   (QArith_base.Qdiv (hd (of_Z 0) r)
                                      (hd (of_Z 0) p))))
                           others))
        end
  end.

Definition show_matrix (m : list (list rational)) : string :=
  Py.join Py.nl (map (fun row => Py.join " " (map show_rational row)) m).

#[export] Instance matrices : MatrixLib := {|
  Matrix := list (list rational);
  from_list := fun lst =>
    if rectangular lst then Returned (map (map of_Z) lst)
    else Raised SizesMatchError;
  matrix_n := fun m => Z.of_nat (List.length m);
  scalar := rational;
  matrix_det := det_of;
  matrix_ref := fun m =>
    Returned (echelon (List.length m + List.length (hd [] m)) m);
  matrix_inverse := inverse_of;
  str_scalar := show_rational;
  str_matrix := show_matrix
|}.

#[export] Instance limits : Limits := {|
  FACTORIZE_MAX := 1000000000000;
  GITHUB_LINK := "https://github.com/math-bot/math_bot"
|}.

Fixpoint trial (fuel : nat) (n d : Z) : list Z :=
  match fuel with
  | O => []
  | S fuel' =>
      if n <=? 1 then []
      else if d * d >? n then [n]
      else if n mod d =? 0 then d :: trial fuel' (n / d) d
      else trial fuel' n (d + 1)
  end.

Fixpoint egcd (fuel : nat) (a b : Z) : Z * Z * Z :=
  match fuel with
  | O => (a, 1, 0)
  | S fuel' =>
      if b =? 0 then (a, 1, 0)
      else let '(d, x, y) := egcd fuel' b (a mod b) in
           (d, y, x - (a / b) * y)
  end.

#[export] Instance number_theory : NumberTheory := {|
  factors := list Z;
  factorize := fun n => trial (Z.to_nat n) n 2;
  factorize_str := fun fs => Py.join " * " (map digits fs);
  ext_gcd := fun a b => egcd (S (Z.to_nat (Z.abs b))) a b
|}.

Definition quotient (text : option string) : Z + EvalError :=
  match text with
  | None => inr InvalidSyntax
  | Some s =>
      match map int_dec (Py.split_on "/"%char s) with
      | [Some x] => inl x
      | [Some x; Some y] =>
          if y =? 0 then inr (BuiltinError ZeroDivisionError) else inl (x / y)
      | _ => inr InvalidSyntax
      end
  end.

Definition lone_variable (text : option string)
  : (list (list Z) * list string) + EvalError :=
  match text with
  | None => inr InvalidSyntax
  | Some s =>
      match Py.split s with
      | [v] => inl ([[0; 0]; [1; 1]], [v])
      | _ => inr InvalidSyntax
      end
  end.

(** A ring library that only answers on residues. *)
Definition residues_only : Rings := {|
  idem_row := Z;
  str_row := digits;
  find_idempotents := fun _ => [];
  find_nilpotents := fun _ => [];
  find_inverse := fun x n =>
    if (0 <=? x) && (x <? n) then inverse_search x n else Raised KeyError
|}.

#[export] Instance evaluators : Evaluators := {|
  value := Z;
  str_value := digits;
  safe_eval := quotient;
  variable := string;
  str_variable := fun v => v;
  cell := Z;
  str_cell := digits;
  build_table := lone_variable
|}.

(** A checkout whose head carries no tag. *)
#[export] Instance git : Git := {|
  tag := string;
  str_tag := fun t => t;
  head_tags := [];
  head_hexsha := "0123456789abcdef0123456789abcdef01234567"
|}.

Definition alice : TgUser :=
  {| tg_id := 7; tg_last_name := None; tg_first_name := Some "Alice";
     tg_username := Some "alice" |}.

Definition admin : TgUser :=
  {| tg_id := 1000; tg_last_name := None; tg_first_name := Some "Root";
     tg_username := None |}.

Definition says (who : TgUser) (text : string) : Message :=
  {| msg_chat_id := tg_id who; msg_id := 1; msg_from := who;
     msg_text := Some text |}.

(** A button pressed by [who] under a message of the bot showing [text]. *)
Definition presses (who : TgUser) (data text : string) : CallbackQuery :=
  {| call_data := data;
     call_message := {| msg_chat_id := tg_id who; msg_id := 2;
                        msg_from := who; msg_text := Some text |};
     call_from := who |}.

(** The store after one report by [alice]. *)
Definition one_report : World :=
  snd (report_handling (says alice "button broken") init_world).

Definition report1 : ReportRecord :=
  {| r_id := 1; r_user_id := 7; r_text := Some "button broken";
     r_timestamp := 0; r_status := NEW; r_link := None |}.

(** [who] presses a button under the card of the first report. *)
Definition on_card (who : TgUser) (data : string) : CallbackQuery :=
  presses who data (report_card report1).

(** The world once the admin has confirmed a link for the first report. *)
Definition confirm1 : CallbackQuery :=
  presses admin "accept_link 1"
    ("Is the link provided correct?" ++ Py.nl ++ "Link: http://x/1").

Definition accepted_report : World :=
  snd (handle (CallbackUpdate confirm1) one_report).

(** The world once the admin has closed the accepted report. *)
Definition closed_report : World :=
  snd (handle (CallbackUpdate (on_card admin "close_report")) accepted_report).

(** [who] presses a button under the question echoing the link. *)
Definition on_question (who : TgUser) (data : string) : CallbackQuery :=
  presses who data
    ("Is the link provided correct?" ++ Py.nl ++ "Link: http://x/1 see above").

(** U+00A0, the no-break space, and U+2003, the em space. *)
Definition nbsp : string :=
  String (ascii_of_nat 194) (String (ascii_of_nat 160) "").

Definition emsp : string :=
  String (ascii_of_nat 226)
    (String (ascii_of_nat 128) (String (ascii_of_nat 131) "")).

End Sample.

(** * Properties *)

Unset Implicit Arguments.

(** Unfolds the monad and the bot primitives in a handler applied to a
    world. *)
Ltac run :=
  cbv [bind ret raise api void get_store put_store get_now get_db close_db
       send_message reply_to register_next_step_handler index text_of
       text_tail replied];
  cbn [fst snd db now calls].

(** ** Text primitives *)

Module PyFacts.
Import Py.

Lemma snoc_append (s t : string) (c : ascii) :
  (snoc s c ++ t = s ++ String c t)%string.
Proof.
  unfold snoc. induction s as [|a s IH]; simpl; [reflexivity|].
  now rewrite IH.
Qed.

Lemma append_empty_r (s : string) : (s ++ "" = s)%string.
Proof. induction s as [|a s IH]; simpl; [reflexivity|now rewrite IH]. Qed.

Lemma append_assoc (s t u : string) : ((s ++ t) ++ u = s ++ t ++ u)%string.
Proof. induction s as [|a s IH]; simpl; [reflexivity|now rewrite IH]. Qed.

Lemma token_not_empty (cur x : string) :
  x <> "" -> ((cur ++ x) =? "")%string = false.
Proof. intros H. destruct x; [contradiction|]. now destruct cur. Qed.

(** *** Runs *)

Lemma flush_app (cur : string) (l l' : list string) :
  flush cur (l ++ l') = (flush cur l ++ l')%list.
Proof. unfold flush. now destruct (cur =? "")%string. Qed.

Lemma flush_token (cur : string) (l : list string) :
  cur <> "" -> flush cur l = cur :: l.
Proof.
  intros H. unfold flush.
  destruct (String.eqb_spec cur ""); [contradiction|reflexivity].
Qed.

Lemma concat_cons (x : string) (l : list string) :
  String.concat "" (x :: l) = (x ++ String.concat "" l)%string.
Proof. destruct l; cbn; [now rewrite append_empty_r|reflexivity]. Qed.

Lemma concat_flush (cur : string) (l : list string) :
  String.concat "" (flush cur l) = (cur ++ String.concat "" l)%string.
Proof.
  unfold flush. destruct (String.eqb_spec cur "") as [->|_]; [reflexivity|].
  apply concat_cons.
Qed.

Lemma existsb_flush (f : string -> bool) (cur : string) (l : list string) :
  existsb f l = true -> existsb f (flush cur l) = true.
Proof.
  intros H. unfold flush. destruct (cur =? "")%string; [assumption|].
  cbn. rewrite H. apply orb_true_r.
Qed.

(** *** Characters *)

Lemma chars_from_ready (cur s : string) :
  chars_from 0 cur s = flush cur (chars s).
Proof. destruct s; reflexivity. Qed.

(** A byte that continues no character starts one, whatever precedes. *)
Lemma chars_from_app (need : nat) (cur x : string) (c : ascii) (y : string) :
  continues c = false ->
  chars_from need cur (x ++ String c y)
  = (chars_from need cur x ++ chars (String c y))%list.
Proof.
  intros Hc. revert need cur.
  induction x as [|d x IH]; intros need cur; cbn [append chars_from].
  - rewrite Hc. rewrite <- flush_app. now destruct need.
  - destruct need as [|k]; [|destruct (continues d)];
      rewrite IH; try reflexivity; now rewrite flush_app.
Qed.

Lemma chars_app (x : string) (c : ascii) (y : string) :
  continues c = false ->
  chars (x ++ String c y) = (chars x ++ chars (String c y))%list.
Proof. apply chars_from_app. Qed.

(** A character of one byte. *)
Lemma chars_byte (c : ascii) (y : string) :
  code c < 128 -> chars (String c y) = String c "" :: chars y.
Proof.
  intros H. unfold chars at 1. cbn [chars_from flush String.eqb].
  replace (follow c) with 0%nat by (unfold follow; now rewrite (proj2 (Z.ltb_lt _ _)) by lia).
  now rewrite chars_from_ready.
Qed.

(** The characters of a text are its bytes, in order. *)
Lemma concat_chars_from (need : nat) (cur s : string) :
  String.concat "" (chars_from need cur s) = (cur ++ s)%string.
Proof.
  revert need cur. induction s as [|c s IH]; intros need cur; cbn [chars_from].
  - rewrite concat_flush. reflexivity.
  - destruct need as [|k]; [|destruct (continues c)];
      rewrite ?concat_flush, IH; try reflexivity.
    apply snoc_append.
Qed.

Lemma concat_chars (s : string) : String.concat "" (chars s) = s.
Proof. apply (concat_chars_from 0 "" s). Qed.

(** *** Lines *)

Lemma no_newline_cons (c : ascii) (s : string) :
  no_newline (String c s) -> c <> newline /\ no_newline s.
Proof.
  intros H. split.
  - apply H. simpl. now left.
  - intros d Hd. apply H. simpl. now right.
Qed.

(** A newline is a character wherever it stands. *)
Lemma newline_is_blank (need : nat) (cur s : string) :
  In newline (list_ascii_of_string s) ->
  existsb isspace (chars_from need cur s) = true.
Proof.
  revert need cur. induction s as [|c s IH]; intros need cur; [intros []|].
  cbn [list_ascii_of_string In chars_from]. intros [->|Hin].
  - change (continues newline) with false. change (follow newline) with 0%nat.
    assert (E : existsb isspace (chars_from 0 (String newline "") s) = true).
    { rewrite chars_from_ready. reflexivity. }
    destruct need; now apply existsb_flush.
  - destruct need as [|k]; [|destruct (continues c)];
      try apply existsb_flush; now apply IH.
Qed.

Lemma no_space_no_newline (s : string) : no_space s -> no_newline s.
Proof.
  intros H c Hc ->. unfold no_space, chars in H.
  now rewrite (newline_is_blank 0 "" s Hc) in H.
Qed.

Lemma first_line_append (x y : string) :
  no_newline x -> first_line (x ++ y) = (x ++ first_line y)%string.
Proof.
  induction x as [|c x IH]; simpl; intros H; [reflexivity|].
  apply no_newline_cons in H. destruct H as [Hc Hx].
  destruct (Ascii.eqb_spec c newline) as [->|_]; [contradiction|].
  now rewrite IH.
Qed.

Lemma split_on_from_head (cur s : string) :
  exists rest,
    split_on_from newline cur s = (cur ++ first_line s)%string :: rest.
Proof.
  revert cur. induction s as [|c s IH]; intros cur; simpl.
  - exists []. now rewrite append_empty_r.
  - destruct (Ascii.eqb c newline).
    + eexists. now rewrite append_empty_r.
    + destruct (IH (snoc cur c)) as [rest ->]. exists rest.
      now rewrite snoc_append.
Qed.

Lemma split_on_from_second (cur x y : string) :
  no_newline x ->
  nth_error (split_on_from newline cur (x ++ String newline y)) 1
  = Some (first_line y).
Proof.
  revert cur. induction x as [|c x IH]; intros cur H; simpl.
  - destruct (split_on_from_head "" y) as [rest Hrest].
    cbn in *. rewrite Hrest. reflexivity.
  - apply no_newline_cons in H. destruct H as [Hc Hx].
    destruct (Ascii.eqb_spec c newline) as [->|_]; [contradiction|].
    now apply IH.
Qed.

(** The second line of a text whose first line is [x]. *)
Lemma lines_second (x y : string) :
  no_newline x ->
  nth_error (lines (x ++ nl ++ y)) 1 = Some (first_line y).
Proof. intros H. now apply split_on_from_second. Qed.

(** The character being read when the line ends is read whole. *)
Lemma first_line_first_char (need : nat) (cur t : string) :
  cur <> "" ->
  hd_error (chars_from need cur (first_line t))
  = hd_error (chars_from need cur t).
Proof.
  intros Hcur. revert need cur Hcur.
  induction t as [|c t IH]; intros need cur Hcur; [reflexivity|].
  cbn [first_line]. destruct (Ascii.eqb_spec c newline) as [->|_].
  - cbn [chars_from]. change (continues newline) with false.
    rewrite !(flush_token cur) by assumption. now destruct need.
  - cbn [chars_from]. destruct need as [|k]; [|destruct (continues c)];
      rewrite ?(flush_token cur) by assumption; try reflexivity.
    apply IH. unfold snoc. now destruct cur.
Qed.

(** A line ends before or after a white-space character, never inside. *)
Lemma first_line_starts_blank (s : string) :
  starts_blank s -> first_line s = "" \/ starts_blank (first_line s).
Proof.
  destruct s as [|c s]; [intros []|]. intros H. cbn [first_line].
  destruct (Ascii.eqb_spec c newline) as [->|Hc]; [now left|]. right.
  unfold starts_blank in *.
  assert (E : hd_error (chars (String c (first_line s)))
              = hd_error (chars (String c s))).
  { unfold chars. cbn [chars_from flush String.eqb].
    now apply first_line_first_char. }
  destruct (chars (String c s)) as [|ch l]; [contradiction|].
  destruct (chars (String c (first_line s))) as [|ch' l']; [discriminate|].
  now injection E as ->.
Qed.

(** *** Tokens *)

Lemma split_chars_token (cur : string) (xs : list string) (ch : string)
  (l : list string) :
  existsb isspace xs = false -> isspace ch = true ->
  split_chars cur (xs ++ ch :: l)
  = flush (cur ++ String.concat "" xs) (split_chars "" l).
Proof.
  intros Hxs Hch. revert cur.
  induction xs as [|x xs IH]; intros cur; cbn [app split_chars].
  - rewrite Hch. cbn. now rewrite append_empty_r.
  - cbn [existsb] in Hxs. apply orb_false_iff in Hxs. destruct Hxs as [Hx Hxs].
    rewrite Hx, (IH Hxs), concat_cons. now rewrite append_assoc.
Qed.

Lemma split_chars_last (cur : string) (xs : list string) :
  existsb isspace xs = false ->
  split_chars cur xs = flush (cur ++ String.concat "" xs) [].
Proof.
  intros Hxs. revert cur.
  induction xs as [|x xs IH]; intros cur; cbn [split_chars].
  - cbn. now rewrite append_empty_r.
  - cbn [existsb] in Hxs. apply orb_false_iff in Hxs. destruct Hxs as [Hx Hxs].
    rewrite Hx, (IH Hxs), concat_cons. now rewrite append_assoc.
Qed.

(** A token read up to the white-space character that follows it. *)
Lemma split_token (x : string) (c : ascii) (y ch : string) (l : list string) :
  no_space x -> x <> "" -> continues c = false ->
  chars (String c y) = ch :: l -> isspace ch = true ->
  split (x ++ String c y) = x :: split_chars "" l.
Proof.
  intros Hx Hne Hc Hy Hch. unfold split.
  rewrite (chars_app x c y Hc), Hy, (split_chars_token "" _ ch l Hx Hch).
  rewrite concat_chars. now apply flush_token.
Qed.

(** A token followed by a white-space character of one byte. *)
Lemma split_token_byte (x : string) (c : ascii) (y : string) :
  no_space x -> x <> "" -> code c < 128 -> isspace (String c "") = true ->
  split (x ++ String c y) = x :: split y.
Proof.
  intros Hx Hne Hc Hs.
  apply (split_token x c y (String c "") (chars y)); try assumption.
  - unfold continues. lia.
  - now apply chars_byte.
Qed.

(** A token at the end of the text. *)
Lemma split_last (x : string) : no_space x -> x <> "" -> split x = [x].
Proof.
  intros Hx Hne. unfold split. rewrite (split_chars_last "" _ Hx).
  rewrite concat_chars. now apply flush_token.
Qed.

(** A token is the first thing read, whatever follows the white space. *)
Lemma split_first (x rest : string) :
  no_space x -> x <> "" -> rest = "" \/ starts_blank rest ->
  exists l, split (x ++ rest) = x :: l.
Proof.
  intros Hx Hne [->|Hb].
  - rewrite append_empty_r. eexists. now apply split_last.
  - destruct rest as [|c y]; [contradiction|]. unfold starts_blank in Hb.
    destruct (chars (String c y)) as [|ch l] eqn:Hy; [contradiction|].
    destruct Hb as [Hc Hch]. eexists.
    now apply (split_token x c y ch l).
Qed.

(** The second token of [lab a rest]: [a] ends where [rest] starts with
    white space, or where the text ends. *)
Lemma split_two_tokens (lab a rest : string) :
  no_space lab -> lab <> "" -> no_space a -> a <> "" ->
  rest = "" \/ starts_blank rest ->
  nth_error (split (lab ++ " " ++ a ++ rest)) 1 = Some a.
Proof.
  intros Hl Hln Ha Han Hrest.
  change (lab ++ " " ++ a ++ rest)%string
    with (lab ++ String " " (a ++ rest))%string.
  rewrite (split_token_byte lab " " (a ++ rest) Hl Hln) by reflexivity.
  destruct (split_first a rest Ha Han Hrest) as [l ->]. reflexivity.
Qed.

End PyFacts.

(** ** The handler monad and the store *)

Section Workflow.
Context {B : Builtins} {C : Config} {R : Rings} {L : MatrixLib}
  {Li : Limits} {Nt : NumberTheory} {Ev : Evaluators} {Gi : Git}.

Section Keeps.
Context {X : Type} (f : Store -> X).

Lemma keeps_ret {A} (a : A) : keeps f (ret a).
Proof. intros w. reflexivity. Qed.

Lemma keeps_raise {A} (e : Exn) : keeps f (@raise A e).
Proof. intros w. reflexivity. Qed.

Lemma keeps_api (c : ApiCall) : keeps f (api c).
Proof. intros w. reflexivity. Qed.

Lemma keeps_get_store : keeps f get_store.
Proof. intros w. reflexivity. Qed.

Lemma keeps_get_now : keeps f get_now.
Proof. intros w. reflexivity. Qed.

Lemma keeps_bind {A A'} (m : Handler A) (k : A -> Handler A') :
  keeps f m -> (forall a, keeps f (k a)) -> keeps f (bind m k).
Proof.
  intros Hm Hk w. unfold bind. specialize (Hm w).
  destruct (m w) as [[a|e] w']; cbn [snd] in *.
  - now rewrite Hk.
  - assumption.
Qed.

Lemma keeps_for_each {A} (l : list A) (body : A -> Handler unit) :
  (forall a, keeps f (body a)) -> keeps f (for_each l body).
Proof.
  intros Hb. induction l as [|a l IH]; simpl.
  - apply keeps_ret.
  - apply keeps_bind; [apply Hb|intros _; apply IH].
Qed.

End Keeps.

Ltac keeps_step :=
  lazymatch goal with
  | |- keeps _ (bind _ _) => apply keeps_bind; [ | intros ? ]
  | |- keeps _ (ret _) => apply keeps_ret
  | |- keeps _ (raise _) => apply keeps_raise
  | |- keeps _ (api _) => apply keeps_api
  | |- keeps _ get_store => apply keeps_get_store
  | |- keeps _ get_now => apply keeps_get_now
  | |- keeps _ (for_each _ _) => apply keeps_for_each; intros ?
  | |- keeps _ (match (if ?b then _ else _) with _ => _ end) =>
      destruct b; cbv beta iota
  | |- keeps _ (match ?x with _ => _ end) => destruct x
  end.

Ltac keeps_all :=
  unfold action_mapper, calc_det, calc_ref, calc_inv, void, get_db, close_db,
    send_message, reply_to, register_next_step_handler, index, text_of,
    text_tail;
  repeat keeps_step.

Lemma keeps_get_or_create id last first uname :
  keeps reports (User_get_or_create id last first uname).
Proof.
  intros w. unfold User_get_or_create. run.
  destruct (find _ (users (db w))); reflexivity.
Qed.

Lemma keeps_db_reports {A} (h : Handler A) :
  keeps (fun s => s) h -> keeps reports h.
Proof. intros H w. now rewrite H. Qed.

Lemma Command_eq_dec (c c' : Command) : {c = c'} + {c <> c'}.
Proof. decide equality. Qed.

Lemma Step_is_report_handling (k : Step) :
  {k = report_handling_step} + {k <> report_handling_step}.
Proof. destruct k; (now left) || (right; discriminate). Qed.

Lemma keeps_matrix_input message action :
  keeps (fun s => s) (matrix_input message action).
Proof. unfold matrix_input. keeps_all. Qed.

Lemma keeps_ring_output message command :
  keeps (fun s => s) (ring_output message command).
Proof. unfold ring_output. keeps_all. Qed.

Lemma keeps_inverse_input_element message :
  keeps (fun s => s) (inverse_input_element message).
Proof. unfold inverse_input_element. keeps_all. Qed.

Lemma keeps_inverse_output message modulo :
  keeps (fun s => s) (inverse_output message modulo).
Proof. unfold inverse_output. keeps_all. Qed.

Lemma keeps_broadcast message : keeps (fun s => s) (broadcast message).
Proof. unfold broadcast. keeps_all. Qed.

Lemma keeps_link_handling message id :
  keeps (fun s => s) (link_handling message id).
Proof. unfold link_handling. keeps_all. Qed.

Lemma keeps_list_reports call : keeps (fun s => s) (list_reports call).
Proof. unfold list_reports, ReportRecord_get_reports. keeps_all. Qed.

Lemma keeps_logic_output message : keeps (fun s => s) (logic_output message).
Proof. unfold logic_output. keeps_all. Qed.

Lemma keeps_factorize_output message :
  keeps (fun s => s) (factorize_output message).
Proof. unfold factorize_output. keeps_all. Qed.

Lemma keeps_euclid_output message :
  keeps (fun s => s) (euclid_output message).
Proof. unfold euclid_output. keeps_all. Qed.

Lemma keeps_calc_output message : keeps (fun s => s) (calc_output message).
Proof. unfold calc_output. keeps_all. Qed.

(** Every command but /start leaves the store alone. *)
Lemma keeps_command c message :
  c <> start -> keeps (fun s => s) (on_command c message).
Proof.
  intros Hc. destruct c; try contradiction; cbn [on_command];
    unfold send_help, det, ref_input, inv_input, logic_input, ring_input,
      inverse_input_ring, factorize_input, euclid_input, calc_input,
      broadcast_input, send_about;
    keeps_all.
Qed.

(** Every step but [report_handling] leaves the store alone. *)
Lemma keeps_next_step k message :
  k <> report_handling_step -> keeps (fun s => s) (on_next_step k message).
Proof.
  intros Hk. destruct k; try contradiction; cbn [on_next_step]; unfold void;
    try (apply keeps_bind; [|intros ?; apply keeps_ret]).
  - apply keeps_matrix_input.
  - apply keeps_ring_output.
  - apply keeps_inverse_input_element.
  - apply keeps_inverse_output.
  - apply keeps_broadcast.
  - apply keeps_link_handling.
  - apply keeps_logic_output.
  - apply keeps_factorize_output.
  - apply keeps_euclid_output.
  - apply keeps_calc_output.
Qed.

Lemma keeps_on_command c message : keeps reports (on_command c message).
Proof.
  destruct (Command_eq_dec c start) as [->|Hc].
  - cbn [on_command]. unfold start_message. keeps_all.
    apply keeps_get_or_create.
  - now apply keeps_db_reports, keeps_command.
Qed.

Lemma report_handling_effect u message w :
  store_effect u (db w) (db (snd (report_handling message w))).
Proof.
  unfold report_handling, User_get_or_create, ReportRecord_new, db_add_commit.
  run. destruct (find _ (users (db w))); run;
    eapply report_added; simpl; reflexivity.
Qed.

Lemma change_report_status_effect call w :
  store_effect (CallbackUpdate call) (db w)
    (db (snd (change_report_status call w))).
Proof.
  unfold change_report_status, ReportRecord_get_report_by_id,
    ReportRecord_change_status.
  destruct call as [data message who]. cbn [call_data call_message].
  run. destruct (msg_text message) as [text|]; [|now apply reports_kept].
  destruct (nth_error (Py.split text) 2) as [tok|]; [|now apply reports_kept].
  destruct (String.eqb_spec data "accept_report") as [->|_];
    [now apply reports_kept|].
  destruct (String.eqb_spec data "close_report") as [->|_].
  - cbn. destruct (int tok) as [z|]; cbn; [|now apply reports_kept].
    destruct (lookup_report (db w) z) as [report|]; [|now apply reports_kept].
    destruct (status_name (r_status report) =? "ACCEPTED")%string; cbn;
      [|now apply reports_kept].
    apply close_committed. now eexists.
  - destruct (String.eqb_spec data "reject_report") as [->|_];
      [|now apply reports_kept].
    cbn. destruct (int tok) as [z|]; cbn; [|now apply reports_kept].
    apply reject_committed. now eexists.
Qed.

Lemma accept_link_effect call w :
  store_effect (CallbackUpdate call) (db w) (db (snd (accept_link call w))).
Proof.
  unfold accept_link, ReportRecord_change_status.
  run. destruct (nth_error (Py.split (call_data call)) 1) as [tok|] eqn:Htok;
    [|now apply reports_kept].
  destruct (int tok) as [z|] eqn:Hz; [|now apply reports_kept].
  destruct (nth_error (Py.split (call_data call)) 0) as [cmd|] eqn:Hcmd;
    [|now apply reports_kept].
  destruct (String.eqb_spec cmd "accept_link") as [->|_];
    [|now apply reports_kept].
  destruct (msg_text (call_message call)) as [text|]; [|now apply reports_kept].
  destruct (nth_error (Py.lines text) 1) as [line|]; [|now apply reports_kept].
  destruct (nth_error (Py.split line) 1) as [link|]; [|now apply reports_kept].
  cbn. apply accept_committed. now exists call, tok.
Qed.

Lemma on_callback_effect call w :
  store_effect (CallbackUpdate call) (db w) (db (snd (on_callback call w))).
Proof.
  unfold on_callback.
  repeat match goal with
         | |- context [if ?b then _ else _] => destruct b
         end;
    try apply change_report_status_effect;
    try (apply reports_kept; apply keeps_db_reports;
         solve [ apply keeps_list_reports
               | unfold callback_inline, cancel_report, choose_report_types,
                   back_func; keeps_all ]);
    unfold bind at 1, index;
    (destruct (nth_error (Py.split (call_data call)) 0) as [cmd|];
     [|now apply reports_kept]);
    unfold ret at 1;
    (destruct (Py.mem_str cmd _); [apply accept_link_effect|]);
    apply reports_kept; apply keeps_db_reports; unfold back_func; keeps_all.
Qed.

Lemma on_next_step_effect u k message w :
  store_effect u (db w) (db (snd (on_next_step k message w))).
Proof.
  destruct (Step_is_report_handling k) as [->|Hk].
  - apply report_handling_effect.
  - apply reports_kept. now apply keeps_db_reports, keeps_next_step.
Qed.

(** Every update acts on the store in one of five ways. *)
Lemma handle_effect u w : store_effect u (db w) (db (snd (handle u w))).
Proof.
  destruct u as [c message|k message|call]; cbn [handle].
  - apply reports_kept. apply keeps_on_command.
  - apply on_next_step_effect.
  - apply on_callback_effect.
Qed.

(** *** Looking reports up *)

Lemma lookup_report_kept (s s' : Store) (z : Z) :
  reports s' = reports s -> lookup_report s' z = lookup_report s z.
Proof. unfold lookup_report. now intros ->. Qed.

Lemma lookup_report_id (s : Store) (z : Z) (r : ReportRecord) :
  lookup_report s z = Some r -> r_id r = z.
Proof.
  unfold lookup_report. intros H. apply find_some in H.
  now apply Z.eqb_eq.
Qed.

Lemma lookup_report_added (s s' : Store) (rec r : ReportRecord) (z : Z) :
  reports s' = (reports s ++ [rec])%list ->
  lookup_report s z = Some r -> lookup_report s' z = Some r.
Proof.
  unfold lookup_report. intros ->.
  induction (reports s) as [|x l IH]; simpl; [discriminate|].
  destruct (r_id x =? z); [trivial|exact IH].
Qed.

Lemma transition_id (action : string) (link : option string) (r : ReportRecord) :
  r_id (transition action link r) = r_id r.
Proof.
  unfold transition.
  destruct (r_status r), link;
    repeat match goal with
           | |- context [if ?b then _ else _] => destruct b
           end; reflexivity.
Qed.

Lemma lookup_change_status (s : Store) (z0 : Z) (action : string)
  (link : option string) (z : Z) :
  lookup_report (change_status_store s z0 action link) z
  = option_map (fun r => if r_id r =? z0 then transition action link r else r)
      (lookup_report s z).
Proof.
  unfold lookup_report, change_status_store. cbn [reports].
  induction (reports s) as [|x l IH]; simpl; [reflexivity|].
  assert (E : r_id (if r_id x =? z0 then transition action link x else x)
              = r_id x)
    by (destruct (r_id x =? z0); [apply transition_id|reflexivity]).
  rewrite E. destruct (r_id x =? z); [reflexivity|exact IH].
Qed.

(** What a transition attempt does to one report. *)
Lemma transition_cases (action : string) (link : option string)
  (r : ReportRecord) :
  transition action link r = r
  \/ (r_status r = NEW /\ action = "accept_report"
      /\ exists l, link = Some l
                   /\ transition action link r = with_status r ACCEPTED (Some l))
  \/ (r_status r = NEW /\ action = "reject_report"
      /\ transition action link r = with_status r REJECTED (r_link r))
  \/ (r_status r = ACCEPTED /\ action = "close_report"
      /\ transition action link r = with_status r CLOSED (r_link r)).
Proof.
  unfold transition.
  destruct (r_status r) eqn:Est, link as [l|];
    repeat match goal with
           | |- context [if (?a =? ?b)%string then _ else _] =>
               destruct (String.eqb_spec a b)
           end; subst; auto.
  - right; left. repeat split; eauto.
  - right; right; left. repeat split; eauto.
  - right; right; left. repeat split; eauto.
  - right; right; right. repeat split; eauto.
  - right; right; right. repeat split; eauto.
Qed.

Lemma transition_keeps_invariant (action : string) (link : option string)
  (r : ReportRecord) :
  link_iff_accepted r -> link_iff_accepted (transition action link r).
Proof.
  intros Hr.
  destruct (transition_cases action link r)
    as [->|[(Hs & _ & l & _ & ->)|[(Hs & _ & ->)|(Hs & _ & ->)]]];
    [assumption| | |]; unfold link_iff_accepted in *; cbn.
  - split; [auto|discriminate].
  - rewrite Hs in Hr. split.
    + intros H. apply Hr in H. destruct H; discriminate.
    + intros [H|H]; discriminate.
  - rewrite Hs in Hr. split; [auto|]. intros _. apply Hr. now left.
Qed.

(** What one update does to a stored report. *)
Lemma handle_report_change (u : Update) (w : World) (z : Z) (r : ReportRecord) :
  lookup_report (db w) z = Some r ->
  exists r', lookup_report (db (snd (handle u w))) z = Some r'
             /\ report_change u z r r'.
Proof.
  intros Hr. pose proof (lookup_report_id _ _ _ Hr) as Hid.
  assert (commit : forall z0 action link,
             (r_id r = z0 -> r_status r = NEW -> action = "accept_report" ->
              link_choice "accept_link" z u) ->
             (r_status r = NEW -> action = "reject_report" ->
              pressed "reject_report" u) ->
             (r_status r = ACCEPTED -> action = "close_report" ->
              pressed "close_report" u) ->
             exists r',
               lookup_report (change_status_store (db w) z0 action link) z
               = Some r' /\ report_change u z r r').
  { intros z0 action link Ha Hj Hc. rewrite lookup_change_status, Hr. cbn.
    eexists; split; [reflexivity|].
    destruct (Z.eqb_spec (r_id r) z0) as [E|_]; [|constructor].
    destruct (transition_cases action link r)
      as [->|[(Hs & Hact & l & _ & ->)|[(Hs & Hact & ->)|(Hs & Hact & ->)]]].
    - constructor.
    - apply accepted; auto.
    - apply rejected; auto.
    - apply closed; auto. }
  destruct (handle_effect u w) as [s' E|s' rec E _ _|z0 l Hu|z0 Hu|z0 Hu].
  - exists r. split; [|constructor]. now rewrite (lookup_report_kept _ _ z E).
  - exists r. split; [|constructor]. eapply lookup_report_added; eauto.
  - apply commit; try discriminate. intros <- _ _. now rewrite Hid in Hu.
  - apply commit; try discriminate. auto.
  - apply commit; try discriminate. auto.
Qed.

(** *** The report lifecycle *)

Lemma pressed_once (d d' : string) (u : Update) :
  pressed d u -> pressed d' u -> d = d'.
Proof.
  intros (call & -> & <-) (call' & E & <-). now injection E as <-.
Qed.

Lemma pressed_first_token (d cmd : string) (z : Z) (u : Update) :
  pressed d u -> link_choice cmd z u -> nth_error (Py.split d) 0 = Some cmd.
Proof.
  intros (call & -> & <-) (call' & tok & E & H & _). now injection E as <-.
Qed.

Ltac clash :=
  match goal with
  | H : pressed ?d ?u, H' : pressed ?d' ?u |- _ =>
      discriminate (pressed_once _ _ _ H H')
  | H : pressed ?d ?u, H' : link_choice ?cmd ?z ?u |- _ =>
      discriminate (pressed_first_token _ _ _ _ H H')
  | H : ?s = ?st, H' : ?s <> ?st |- _ => contradiction
  end.

(** C1.  Whatever the update, a stored report stays stored and its record
    either is untouched or moves along one of NEW to ACCEPTED (by the
    confirmation callback of the link, which sets the link), NEW to REJECTED
    (by [reject_report]) or ACCEPTED to CLOSED (by [close_report]), link kept
    in the last two; rejecting or confirming on a report that is not NEW, and
    closing one that is not ACCEPTED, leave the record as it is. *)
Theorem status_follows_legal_transitions
  (u : Update) (w : World) (z : Z) (r : ReportRecord) :
  lookup_report (db w) z = Some r ->
  exists r',
    lookup_report (db (snd (handle u w))) z = Some r'
    /\ report_change u z r r'
    /\ (r_status r <> NEW ->
        pressed "reject_report" u \/ link_choice "accept_link" z u -> r' = r)
    /\ (r_status r <> ACCEPTED -> pressed "close_report" u -> r' = r)
    /\ (r_status r = REJECTED \/ r_status r = CLOSED -> r' = r).
Proof.
  intros Hr. destruct (handle_report_change u w z r Hr) as (r' & Hr' & Hch).
  exists r'. repeat split; try assumption.
  - intros Hn [Hp|Hp]; destruct Hch; try reflexivity; clash.
  - intros Hn Hp; destruct Hch; try reflexivity; clash.
  - intros [Hs|Hs]; destruct Hch; try reflexivity; congruence.
Qed.

(** C2.  In every reachable world each stored report has a link exactly
    when its status is ACCEPTED or CLOSED; and an update that takes a report
    from ACCEPTED to CLOSED keeps the link it had. *)
Theorem link_set_iff_accepted_or_closed (w : World) :
  reachable w ->
  (forall r, In r (reports (db w)) -> link_iff_accepted r)
  /\ (forall u z r r',
        lookup_report (db w) z = Some r ->
        lookup_report (db (snd (handle u w))) z = Some r' ->
        r_status r = ACCEPTED -> r_status r' = CLOSED ->
        r_link r' = r_link r /\ r_link r' <> None).
Proof.
  intros Hw.
  assert (Inv : forall r, In r (reports (db w)) -> link_iff_accepted r).
  { induction Hw as [|w w' _ IH Hstep]; [intros r []|].
    destruct Hstep as [w t|w u|w cs]; cbn [db]; try exact IH.
    destruct (handle_effect u w) as [s' E|s' rec E Hs Hl|z l _|z _|z _].
    - now rewrite E.
    - rewrite E. intros r Hin. apply in_app_or in Hin.
      destruct Hin as [Hin|[<-|[]]]; [now apply IH|].
      unfold link_iff_accepted. rewrite Hs, Hl. split; [congruence|].
      intros [H|H]; discriminate.
    - intros r Hin. cbn in Hin. apply in_map_iff in Hin.
      destruct Hin as (r0 & <- & Hin). destruct (r_id r0 =? z); auto.
      now apply transition_keeps_invariant, IH.
    - intros r Hin. cbn in Hin. apply in_map_iff in Hin.
      destruct Hin as (r0 & <- & Hin). destruct (r_id r0 =? z); auto.
      now apply transition_keeps_invariant, IH.
    - intros r Hin. cbn in Hin. apply in_map_iff in Hin.
      destruct Hin as (r0 & <- & Hin). destruct (r_id r0 =? z); auto.
      now apply transition_keeps_invariant, IH. }
  split; [exact Inv|].
  intros u z r r' Hr Hr' Hs Hs'.
  destruct (handle_report_change u w z r Hr) as (r'' & Hr'' & Hch).
  rewrite Hr' in Hr''. injection Hr'' as <-.
  assert (Hl : r_link r <> None).
  { apply find_some in Hr. apply (Inv r); [tauto|now left]. }
  destruct Hch; cbn in *; try congruence. now split.
Qed.

(** *** Routing of the callbacks *)

Lemma on_callback_action (call : CallbackQuery) :
  Py.mem_str (call_data call) ["accept_report"; "reject_report"; "close_report"]
  = true ->
  on_callback call = change_report_status call.
Proof.
  unfold on_callback, Py.mem_str. cbn [existsb]. intros H.
  repeat match type of H with
         | context [(?d =? ?c)%string] =>
             destruct (String.eqb_spec d c) as [->|_]; [reflexivity|]
         end.
  discriminate.
Qed.

Lemma first_token_not (d cmd c : string) :
  nth_error (Py.split d) 0 = Some cmd ->
  nth_error (Py.split c) 0 <> Some cmd -> (d =? c)%string = false.
Proof.
  intros H Hc. destruct (String.eqb_spec d c) as [->|_]; [contradiction|trivial].
Qed.

Lemma on_callback_link (call : CallbackQuery) (cmd : string) (w : World) :
  nth_error (Py.split (call_data call)) 0 = Some cmd ->
  cmd = "accept_link" \/ cmd = "reject_link" ->
  on_callback call w = accept_link call w.
Proof.
  intros H Hcmd. unfold on_callback, Py.mem_str. cbn [existsb].
  destruct Hcmd as [-> | ->];
    repeat match goal with
           | |- context [(call_data call =? ?c)%string] =>
               rewrite (first_token_not (call_data call) _ c H)
                 by (vm_compute; discriminate)
           end;
    cbn [orb]; unfold bind at 1, index; rewrite H; reflexivity.
Qed.

(** *** The accept sub-flow *)

Lemma ask_link_keeps_db (call : CallbackQuery) (w : World) :
  call_data call = "accept_report" ->
  db (snd (change_report_status call w)) = db w.
Proof.
  destruct call as [data message who]. cbn [call_data]. intros ->.
  unfold change_report_status. cbn [call_data call_message]. run.
  destruct (msg_text message) as [text|]; [|reflexivity].
  destruct (nth_error (Py.split text) 2); reflexivity.
Qed.

Lemma reject_link_world (call : CallbackQuery) (w : World) (tok : string) (z : Z) :
  nth_error (Py.split (call_data call)) 0 = Some "reject_link" ->
  nth_error (Py.split (call_data call)) 1 = Some tok ->
  int tok = Some z ->
  accept_link call w
  = (Returned tt,
     {| db := db w; now := now w;
        calls := calls w
                 ++ [SendMessage (msg_chat_id (call_message call))
                       (Some "Please provide the link again.") None None;
                     RegisterNextStepHandler (msg_chat_id (call_message call))
                       (link_handling_step (KInt z))] |}).
Proof.
  intros H0 H1 Hz. unfold accept_link. run. rewrite H1, Hz, H0. cbn.
  now rewrite <- app_assoc.
Qed.

Lemma confirm_link_world (call : CallbackQuery) (w : World) (tok : string)
  (z : Z) (text line l : string) :
  nth_error (Py.split (call_data call)) 0 = Some "accept_link" ->
  nth_error (Py.split (call_data call)) 1 = Some tok ->
  int tok = Some z ->
  msg_text (call_message call) = Some text ->
  nth_error (Py.lines text) 1 = Some line ->
  nth_error (Py.split line) 1 = Some l ->
  accept_link call w
  = (Returned tt,
     {| db := change_status_store (db w) z "accept_report" (Some l);
        now := now w;
        calls := calls w
                 ++ [SendMessage (msg_chat_id (call_message call))
                       (Some "The issue has been confirmed.") None None] |}).
Proof.
  intros H0 H1 Hz Ht Hl Hk. unfold accept_link, ReportRecord_change_status.
  run. rewrite H1, Hz, H0, Ht, Hl, Hk. reflexivity.
Qed.

Lemma accept_commits (s : Store) (z : Z) (l : string) (r : ReportRecord) :
  lookup_report s z = Some r -> r_status r = NEW ->
  lookup_report (change_status_store s z "accept_report" (Some l)) z
  = Some (with_status r ACCEPTED (Some l)).
Proof.
  intros Hr Hs. rewrite lookup_change_status, Hr. cbn.
  rewrite (lookup_report_id _ _ _ Hr), Z.eqb_refl.
  unfold transition. now rewrite Hs.
Qed.

Lemma unconfirmed_keeps_db (u : Update) (w : World) :
  unconfirmed u -> db (snd (handle u w)) = db w.
Proof.
  intros [(call & -> & Hd)|[(message & id & ->)|(z & call & tok & -> & H0 & H1 & Hz)]];
    cbn [handle on_next_step].
  - rewrite on_callback_action by now rewrite Hd.
    now apply ask_link_keeps_db.
  - apply keeps_link_handling.
  - rewrite (on_callback_link call _ w H0) by now right.
    now rewrite (reject_link_world call w tok z H0 H1 Hz).
Qed.

(** C3.  The accept sub-flow writes nothing to the store before the
    confirmation: asking to accept, sending a link and rejecting the echoed
    link, in any number and order, leave the store as it was; rejecting the
    link asks again and registers [link_handling] for the same report; only
    the confirmation callback takes the report from NEW to ACCEPTED and sets
    its link. *)
Theorem link_commits_only_on_confirmation :
  (forall us w, Forall unconfirmed us -> db (run us w) = db w)
  /\ (forall call w tok z,
        nth_error (Py.split (call_data call)) 0 = Some "reject_link" ->
        nth_error (Py.split (call_data call)) 1 = Some tok ->
        int tok = Some z ->
        handle (CallbackUpdate call) w
        = (Returned tt,
           {| db := db w; now := now w;
              calls := calls w
                       ++ [SendMessage (msg_chat_id (call_message call))
                             (Some "Please provide the link again.") None None;
                           RegisterNextStepHandler
                             (msg_chat_id (call_message call))
                             (link_handling_step (KInt z))] |}))
  /\ (forall call w tok z text line l r,
        nth_error (Py.split (call_data call)) 0 = Some "accept_link" ->
        nth_error (Py.split (call_data call)) 1 = Some tok ->
        int tok = Some z ->
        msg_text (call_message call) = Some text ->
        nth_error (Py.lines text) 1 = Some line ->
        nth_error (Py.split line) 1 = Some l ->
        lookup_report (db w) z = Some r -> r_status r = NEW ->
        lookup_report (db (snd (handle (CallbackUpdate call) w))) z
        = Some (with_status r ACCEPTED (Some l))).
Proof.
  repeat split.
  - intros us. induction us as [|u us IH]; intros w Hus; [reflexivity|].
    inversion Hus as [|? ? Hu Hus']; subst. cbn [run].
    rewrite IH by assumption. now apply unconfirmed_keeps_db.
  - intros call w tok z H0 H1 Hz. cbn [handle].
    rewrite (on_callback_link call _ w H0) by now right.
    now apply (reject_link_world call w tok).
  - intros call w tok z text line l r H0 H1 Hz Ht Hl Hk Hr Hs. cbn [handle].
    rewrite (on_callback_link call _ w H0) by now left.
    rewrite (confirm_link_world call w tok z text line l H0 H1 Hz Ht Hl Hk).
    cbn [snd db].
    now apply accept_commits.
Qed.

(** C4.  [close_report] on a stored report: when the report is ACCEPTED the
    handler takes it to CLOSED, link kept, and tells the admin so; in any
    other status the store is left as it was and the admin is told that the
    issue has not been confirmed yet. *)
Theorem close_report_only_from_accepted
  (call : CallbackQuery) (w : World) (text tok : string) (z : Z)
  (r : ReportRecord) :
  call_data call = "close_report" ->
  msg_text (call_message call) = Some text ->
  nth_error (Py.split text) 2 = Some tok ->
  int tok = Some z ->
  lookup_report (db w) z = Some r ->
  handle (CallbackUpdate call) w = change_report_status call w
  /\ (r_status r = ACCEPTED ->
      change_report_status call w
      = (Returned tt,
         {| db := change_status_store (db w) z "close_report" None;
            now := now w;
            calls := calls w
                     ++ [SendMessage (msg_chat_id (call_message call))
                           (Some "The issue has been closed.") None None] |})
      /\ lookup_report (change_status_store (db w) z "close_report" None) z
         = Some (with_status r CLOSED (r_link r)))
  /\ (r_status r <> ACCEPTED ->
      change_report_status call w
      = (Returned tt,
         {| db := db w; now := now w;
            calls := calls w
                     ++ [SendMessage (msg_chat_id (call_message call))
                           (Some "The issue has not been confirmed yet!")
                           None None] |})).
Proof.
  intros Hd Ht Htok Hz Hr.
  split; [cbn [handle]; rewrite on_callback_action; [reflexivity|now rewrite Hd]|].
  assert (Hclosed : r_status r = ACCEPTED ->
            lookup_report (change_status_store (db w) z "close_report" None) z
            = Some (with_status r CLOSED (r_link r))).
  { intros Hs. rewrite lookup_change_status, Hr. cbn [option_map].
    rewrite (lookup_report_id _ _ _ Hr), Z.eqb_refl.
    unfold transition. now rewrite Hs. }
  unfold change_report_status, ReportRecord_get_report_by_id,
    ReportRecord_change_status.
  run. rewrite Ht, Htok, Hd. cbn [String.eqb Ascii.eqb Bool.eqb key_id].
  rewrite Hz, Hr.
  split.
  - intros Hs. split; [|now apply Hclosed]. now rewrite Hs.
  - intros Hs. destruct (r_status r); [reflexivity|contradiction|..]; reflexivity.
Qed.

(** C9.  On confirmation the link passed to the store, and stored on a NEW
    report, is the token of index 1 of the second line of the message
    carrying the buttons; when that line is a label followed by a link text,
    what is stored is [a], the part of the link text before its first
    white-space character, ASCII or not: whatever follows on the line is
    dropped, and a link text without white space is stored whole. *)
Theorem stored_link_is_first_token
  (call : CallbackQuery) (w : World) (tok : string) (z : Z) (r : ReportRecord) :
  nth_error (Py.split (call_data call)) 0 = Some "accept_link" ->
  nth_error (Py.split (call_data call)) 1 = Some tok ->
  int tok = Some z ->
  lookup_report (db w) z = Some r -> r_status r = NEW ->
  (forall text line l,
      msg_text (call_message call) = Some text ->
      nth_error (Py.lines text) 1 = Some line ->
      nth_error (Py.split line) 1 = Some l ->
      lookup_report (db (snd (accept_link call w))) z
      = Some (with_status r ACCEPTED (Some l)))
  /\ (forall first lab a rest,
        Py.no_newline first ->
        Py.no_space lab -> lab <> "" -> Py.no_space a -> a <> "" ->
        rest = "" \/ Py.starts_blank rest ->
        msg_text (call_message call)
        = Some (first ++ Py.nl ++ lab ++ " " ++ a ++ rest) ->
        lookup_report (db (snd (accept_link call w))) z
        = Some (with_status r ACCEPTED (Some a))).
Proof.
  intros H0 H1 Hz Hr Hs.
  assert (Glink : forall text line l,
             msg_text (call_message call) = Some text ->
             nth_error (Py.lines text) 1 = Some line ->
             nth_error (Py.split line) 1 = Some l ->
             lookup_report (db (snd (accept_link call w))) z
             = Some (with_status r ACCEPTED (Some l))).
  { intros text line l Ht Hl Hk.
    rewrite (confirm_link_world call w tok z text line l H0 H1 Hz Ht Hl Hk).
    cbn [snd db]. now apply accept_commits. }
  split; [exact Glink|].
  intros first lab a rest Hf Hlab Hlab' Ha Ha' Hrest Ht.
  apply (Glink _ (lab ++ " " ++ a ++ Py.first_line rest) a Ht).
  - rewrite PyFacts.lines_second by assumption. f_equal.
    rewrite PyFacts.first_line_append by now apply PyFacts.no_space_no_newline.
    cbn. f_equal. f_equal.
    now rewrite PyFacts.first_line_append
      by now apply PyFacts.no_space_no_newline.
  - apply PyFacts.split_two_tokens; try assumption.
    destruct Hrest as [->|Hb]; [now left|].
    now apply PyFacts.first_line_starts_blank.
Qed.

End Workflow.

(** ** The input dialogues *)

Section Dialogues.
Context {B : Builtins} {C : Config} {R : Rings} {L : MatrixLib}
  {Li : Limits} {Nt : NumberTheory} {Ev : Evaluators} {Gi : Git}.

Lemma out_of_range (n : Z) :
  n < 2 \/ MAX_MODULO <= n -> (n >=? MAX_MODULO) || (n <? 2) = true.
Proof.
  intros [H|H]; apply orb_true_iff; [right; lia|left; lia].
Qed.

(** C7.  The modulus typed in the /idempotents, /nilpotents and /inverse
    dialogues: a text that [int] refuses is answered by "Input data error",
    an integer outside 2 <= n < MAX_MODULO by the limitation message; in both
    cases this is the only call, so no step is registered and nothing is
    computed. *)
Theorem ring_modulus_is_validated
  (message : Message) (text command : string) (w : World) :
  msg_text message = Some text ->
  let answer s :=
    replied w (SendMessage (msg_chat_id message) (Some s) None (Some menu)) in
  (int (Py.strip text) = None ->
   ring_output message command w = (Returned None, answer "Input data error")
   /\ inverse_input_element message w
      = (Returned tt, answer "Input data error"))
  /\ (forall n, int (Py.strip text) = Some n -> n < 2 \/ MAX_MODULO <= n ->
      ring_output message command w = (Returned None, answer limitation)
      /\ inverse_input_element message w = (Returned tt, answer limitation)).
Proof.
  intros Ht. cbv zeta. unfold ring_output, inverse_input_element. run.
  rewrite Ht. split.
  - intros ->. split; reflexivity.
  - intros n -> Hn. rewrite (out_of_range n Hn). split; reflexivity.
Qed.

(** C10.  In the /inverse dialogue two elements congruent modulo a valid
    modulus get the same treatment: same return value and same calls. *)
Theorem inverse_output_depends_on_residue
  (message message' : Message) (text text' : string) (m e e' : Z) (w : World) :
  2 <= m < MAX_MODULO ->
  msg_chat_id message = msg_chat_id message' ->
  msg_text message = Some text -> msg_text message' = Some text' ->
  int (Py.strip text) = Some e -> int (Py.strip text') = Some e' ->
  (m | e - e') ->
  inverse_output message m w = inverse_output message' m w.
Proof.
  intros Hm Hchat Ht Ht' He He' Hdiv.
  assert (Hmod : e mod m = e' mod m).
  { destruct Hdiv as [k Hk]. replace e with (e' + k * m) by lia.
    apply Z.mod_add. lia. }
  unfold inverse_output. run. rewrite Ht, Ht', He, He', Hmod, Hchat.
  reflexivity.
Qed.

(** *** The step registry

    The registry is kept by the bot library; these are the requests [tg.py]
    makes of it when a dialogue starts and when a report is cancelled. *)

Lemma det_registers (message : Message) (w : World) :
  det message w
  = (Returned tt,
     {| db := db w; now := now w;
        calls := calls w
                 ++ [SendMessage (msg_chat_id message)
                       (Some "Enter the matrix: (in one message)") None
                       (Some hide_menu);
                     RegisterNextStepHandler (msg_chat_id message)
                       (matrix_input_step "det")] |}).
Proof. unfold det. run. now rewrite <- app_assoc. Qed.

Lemma cancel_report_clears (call : CallbackQuery) (w : World) :
  cancel_report call w
  = (Returned tt,
     {| db := db w; now := now w;
        calls := calls w
                 ++ [DeleteMessage (msg_chat_id (call_message call))
                       (msg_id (call_message call));
                     ClearStepHandlerByChatId
                       (msg_chat_id (call_message call))] |}).
Proof. unfold cancel_report. run. now rewrite <- app_assoc. Qed.

(** *** Matrix texts *)

Lemma comprehension_none {X Y} (f : X -> option Y) (l : list X) :
  comprehension f l = None <-> exists x, In x l /\ f x = None.
Proof.
  induction l as [|a l IH]; simpl.
  - split; [discriminate|intros (x & [] & _)].
  - destruct (f a) as [y|] eqn:Ea.
    + destruct (comprehension f l) as [ys|].
      * split; [discriminate|]. intros (x & [<-|Hx] & Hf); [congruence|].
        assert (E : Some ys = None) by (apply IH; now exists x).
        discriminate.
      * split; [|trivial]. intros _.
        destruct (proj1 IH eq_refl) as (x & Hx & Hf). exists x. auto.
    + split; [|trivial]. intros _. exists a. auto.
Qed.

Lemma comprehension_some {X Y} (f : X -> option Y) (l : list X) (ys : list Y) :
  comprehension f l = Some ys -> Forall2 (fun x y => f x = Some y) l ys.
Proof.
  revert ys. induction l as [|a l IH]; simpl; intros ys H.
  - injection H as <-. constructor.
  - destruct (f a) as [y|] eqn:Ea; [|discriminate].
    destruct (comprehension f l) as [ys'|]; [|discriminate].
    injection H as <-. constructor; auto.
Qed.

Lemma comprehension_length {X Y} (f : X -> option Y) (l : list X) (ys : list Y) :
  comprehension f l = Some ys -> List.length ys = List.length l.
Proof.
  intros H. apply comprehension_some in H. symmetry.
  induction H; simpl; congruence.
Qed.

Lemma rectangular_lengths {X Y} (l : list (list X)) (l' : list (list Y)) :
  Forall2 (fun r r' => List.length r' = List.length r) l l' ->
  rectangular l' = rectangular l.
Proof.
  intros H. destruct H as [|r r' l l' Hr Hl]; [reflexivity|]. simpl.
  induction Hl as [|a a' l l' Ha Hl IH]; simpl; [reflexivity|].
  now rewrite IH, Ha, Hr.
Qed.

Lemma parse_rows_none (text : string) :
  parse_rows text = None <-> not_numeric text.
Proof.
  unfold parse_rows, not_numeric, rows_of. rewrite comprehension_none. split.
  - intros (row & Hrow & Hf). apply comprehension_none in Hf.
    destruct Hf as (x & Hx & Hf). exists (Py.split row), x.
    split; [now apply in_map|auto].
  - intros (row & x & Hrow & Hx & Hf). apply in_map_iff in Hrow.
    destruct Hrow as (line & <- & Hline). exists line. split; [assumption|].
    apply comprehension_none. now exists x.
Qed.

Lemma parse_rows_shape (text : string) (lst : list (list float_t)) :
  parse_rows text = Some lst -> rectangular lst = rectangular (rows_of text).
Proof.
  unfold parse_rows, rows_of. intros H. apply comprehension_some in H.
  apply rectangular_lengths.
  induction H as [|line row l l' Hrow Hl IH]; simpl; constructor; auto.
  now apply comprehension_length in Hrow.
Qed.

(** C8.  A matrix text typed in the /det, /ref and /m_inverse dialogues: an
    entry that [float] refuses is answered by the numeric-input error,
    whatever the lengths of the rows; rows of unequal length whose entries all
    convert are answered by the rectangularity error; a matrix whose [n]
    exceeds MAX_MATRIX by the message stating the limit; otherwise
    [matrix_input] does what the handler selected by the action does on the
    matrix, which is [calc_det], [calc_ref] or [calc_inv].  A rejection is
    one reply and registers no step. *)
Theorem matrix_text_is_validated {LS : MatrixLibSpec L}
  (message : Message) (text action : string) (w : World) :
  msg_text message = Some text ->
  let reject s parse_mode :=
    (Returned tt, replied w (ReplyTo message s parse_mode (Some menu))) in
  (not_numeric text ->
   matrix_input message action w = reject numeric_error (Some "html"))
  /\ (~ not_numeric text -> rectangular (rows_of text) = false ->
      matrix_input message action w = reject rectangular_error (Some "html"))
  /\ (forall lst m,
        parse_rows text = Some lst -> from_list lst = Returned m ->
        (matrix_n m > MAX_MATRIX ->
         matrix_input message action w = reject limit_error None)
        /\ (forall h,
              matrix_n m <= MAX_MATRIX -> action_mapper action = Some h ->
              matrix_input message action w
              = void (h message action m) w))
  /\ action_mapper "det" = Some calc_det
  /\ action_mapper "ref" = Some calc_ref
  /\ action_mapper "m_inverse" = Some calc_inv.
Proof.
  intros Ht. cbv zeta. unfold matrix_input. run. rewrite Ht.
  split; [|split; [|split; [|repeat split]]].
  - intros Hn. apply parse_rows_none in Hn. now rewrite Hn.
  - intros Hn Hrect. destruct (parse_rows text) as [lst|] eqn:Hp.
    + rewrite <- (parse_rows_shape text lst Hp) in Hrect.
      now rewrite (from_list_sizes lst Hrect).
    + exfalso. apply Hn. now apply parse_rows_none.
  - intros lst m Hp Hm. rewrite Hp, Hm. split.
    + intros Hn.
      replace (matrix_n m >? MAX_MATRIX) with true by (symmetry; lia).
      reflexivity.
    + intros h Hn Hh. rewrite Hh.
      replace (matrix_n m >? MAX_MATRIX) with false by (symmetry; lia).
      reflexivity.
Qed.

End Dialogues.

(** ** The handlers at work in the sample environment *)

Module SampleFacts.
Import Sample.

#[export] Instance matrices_spec : MatrixLibSpec matrices.
Proof.
  constructor. intros lst H. unfold from_list, matrices. now rewrite H.
Qed.

Ltac each_char :=
  let c := fresh "c" in
  let H := fresh "H" in
  intros c H; cbn in H;
  repeat (destruct H as [<-|H]; [first [reflexivity | discriminate]|]);
  contradiction.

Lemma one_report_reachable : reachable one_report.
Proof.
  change one_report
    with (snd (handle (NextStepUpdate report_handling_step
                         (says alice "button broken")) init_world)).
  eapply reachable_step; [apply reachable_init|apply step_update].
Qed.

Lemma status_follows_legal_transitions_witness :
  lookup_report (db one_report) 1 = Some report1
  /\ exists r',
      lookup_report
        (db (snd (handle (CallbackUpdate (on_card admin "reject_report"))
                    one_report))) 1 = Some r'
      /\ report_change (CallbackUpdate (on_card admin "reject_report")) 1
           report1 r'.
Proof.
  split; [reflexivity|].
  destruct (status_follows_legal_transitions
              (CallbackUpdate (on_card admin "reject_report")) one_report 1
              report1 eq_refl) as (r' & H1 & H2 & _).
  exists r'. split; assumption.
Defined.

Lemma accepted_report_reachable : reachable accepted_report.
Proof.
  eapply reachable_step; [exact one_report_reachable|apply step_update].
Qed.

Lemma closed_report_reachable : reachable closed_report.
Proof.
  eapply reachable_step; [exact accepted_report_reachable|apply step_update].
Qed.

(** The first report once accepted with its link, then closed: the link is
    there in both statuses, and closing has kept it. *)
Lemma link_set_iff_accepted_or_closed_witness :
  reachable accepted_report
  /\ lookup_report (db accepted_report) 1
     = Some (with_status report1 ACCEPTED (Some "http://x/1"))
  /\ link_iff_accepted (with_status report1 ACCEPTED (Some "http://x/1"))
  /\ lookup_report (db closed_report) 1
     = Some (with_status report1 CLOSED (Some "http://x/1"))
  /\ r_link (with_status report1 CLOSED (Some "http://x/1"))
     = r_link (with_status report1 ACCEPTED (Some "http://x/1"))
  /\ r_link (with_status report1 CLOSED (Some "http://x/1")) <> None
  /\ reachable closed_report
  /\ link_iff_accepted (with_status report1 CLOSED (Some "http://x/1")).
Proof.
  assert (Ha : lookup_report (db accepted_report) 1
               = Some (with_status report1 ACCEPTED (Some "http://x/1")))
    by reflexivity.
  assert (Hc : lookup_report
                 (db (snd (handle (CallbackUpdate (on_card admin "close_report"))
                             accepted_report))) 1
               = Some (with_status report1 CLOSED (Some "http://x/1")))
    by reflexivity.
  destruct (link_set_iff_accepted_or_closed accepted_report
              accepted_report_reachable) as [Inv Close].
  destruct (Close (CallbackUpdate (on_card admin "close_report")) 1
              (with_status report1 ACCEPTED (Some "http://x/1"))
              (with_status report1 CLOSED (Some "http://x/1"))
              Ha Hc eq_refl eq_refl) as [Hkept Hset].
  split; [exact accepted_report_reachable|].
  split; [exact Ha|].
  split; [apply Inv; left; reflexivity|].
  split; [exact Hc|].
  split; [exact Hkept|].
  split; [exact Hset|].
  split; [exact closed_report_reachable|].
  apply (proj1 (link_set_iff_accepted_or_closed closed_report
                  closed_report_reachable)).
  left. reflexivity.
Defined.

Lemma link_commits_only_on_confirmation_witness :
  db (run [CallbackUpdate (on_card admin "accept_report");
           NextStepUpdate (link_handling_step (KStr "1"))
             (says admin "http://x/1 see above");
           CallbackUpdate (on_question admin "reject_link 1")] one_report)
  = db one_report
  /\ lookup_report
       (db (snd (handle (CallbackUpdate (on_question admin "accept_link 1"))
                   one_report))) 1
     = Some (with_status report1 ACCEPTED (Some "http://x/1")).
Proof.
  destruct link_commits_only_on_confirmation as (H1 & _ & H3). split.
  - apply H1.
    apply Forall_cons; [|apply Forall_cons; [|apply Forall_cons; [|apply Forall_nil]]].
    + left. eexists. split; reflexivity.
    + right; left. eexists. eexists. reflexivity.
    + right; right. exists 1. eexists. exists "1". repeat split; reflexivity.
  - apply (H3 (on_question admin "accept_link 1") one_report "1" 1
             ("Is the link provided correct?" ++ Py.nl
              ++ "Link: http://x/1 see above")
             "Link: http://x/1 see above" "http://x/1" report1);
      reflexivity.
Defined.

Lemma close_report_only_from_accepted_witness :
  snd (change_report_status (on_card admin "close_report") one_report)
  = replied one_report
      (SendMessage 1000 (Some "The issue has not been confirmed yet!") None None)
  /\ lookup_report
       (db (snd (change_report_status (on_card admin "close_report")
                   accepted_report))) 1
     = Some (with_status report1 CLOSED (Some "http://x/1")).
Proof.
  assert (Hi : int "1" = Some 1) by reflexivity.
  assert (Ht : nth_error (Py.split (report_card report1)) 2 = Some "1")
    by reflexivity.
  split.
  - destruct (close_report_only_from_accepted
                (on_card admin "close_report") one_report
                (report_card report1) "1" 1 report1
                eq_refl eq_refl Ht Hi eq_refl) as (_ & _ & H).
    rewrite H; [reflexivity|discriminate].
  - destruct (close_report_only_from_accepted
                (on_card admin "close_report") accepted_report
                (report_card report1) "1" 1
                (with_status report1 ACCEPTED (Some "http://x/1"))
                eq_refl eq_refl Ht Hi eq_refl) as (_ & H & _).
    destruct (H eq_refl) as [E1 E2]. rewrite E1. exact E2.
Defined.

(** A link text cut at a blank, and one cut at a no-break space. *)
Lemma stored_link_is_first_token_witness :
  lookup_report
    (db (snd (accept_link (on_question admin "accept_link 1") one_report))) 1
  = Some (with_status report1 ACCEPTED (Some "http://x/1"))
  /\ lookup_report
       (db (snd (accept_link
                   (presses admin "accept_link 1"
                      ("Is the link provided correct?" ++ Py.nl
                       ++ "Link: http://x/1" ++ nbsp ++ "see"))
                   one_report))) 1
     = Some (with_status report1 ACCEPTED (Some "http://x/1")).
Proof.
  assert (Hi : int "1" = Some 1) by reflexivity.
  split.
  - destruct (stored_link_is_first_token
                (on_question admin "accept_link 1") one_report "1" 1 report1
                eq_refl eq_refl Hi eq_refl eq_refl) as [_ H].
    apply (H "Is the link provided correct?" "Link:" "http://x/1" " see above");
      try each_char; try discriminate; try reflexivity.
    right. split; reflexivity.
  - destruct (stored_link_is_first_token
                (presses admin "accept_link 1"
                   ("Is the link provided correct?" ++ Py.nl
                    ++ "Link: http://x/1" ++ nbsp ++ "see"))
                one_report "1" 1 report1
                eq_refl eq_refl Hi eq_refl eq_refl) as [_ H].
    apply (H "Is the link provided correct?" "Link:" "http://x/1"
             (nbsp ++ "see"));
      try each_char; try discriminate; try reflexivity.
    right. split; reflexivity.
Defined.

Lemma ring_modulus_is_validated_witness :
  ring_output (says alice "one") "idempotents" init_world
  = (Returned None,
     replied init_world (SendMessage 7 (Some "Input data error") None (Some menu)))
  /\ inverse_input_element (says alice " 1 ") init_world
     = (Returned tt,
        replied init_world
          (SendMessage 7 (Some "Limitation: 2 <= n < 1.000000E+09") None
             (Some menu))).
Proof.
  split.
  - destruct (ring_modulus_is_validated (says alice "one") "one" "idempotents"
                init_world eq_refl) as [H _].
    apply H. reflexivity.
  - destruct (ring_modulus_is_validated (says alice " 1 ") " 1 " "idempotents"
                init_world eq_refl) as [_ H].
    apply (H 1); [reflexivity|]. left. reflexivity.
Defined.

Lemma inverse_output_depends_on_residue_witness :
  inverse_output (says alice "-5") 7 init_world
  = inverse_output (says alice "9") 7 init_world.
Proof.
  apply (inverse_output_depends_on_residue
           (says alice "-5") (says alice "9") "-5" "9" 7 (-5) 9 init_world);
    try reflexivity.
  - split; [discriminate|reflexivity].
  - exists (-2). reflexivity.
Defined.

(** Rows of unequal length, and a matrix whose first row is cut by a
    no-break space: its determinant is the reply. *)
Lemma matrix_text_is_validated_witness :
  matrix_input (says alice ("1 2" ++ Py.nl ++ "3")) "det" init_world
  = (Returned tt,
     replied init_world
       (ReplyTo (says alice ("1 2" ++ Py.nl ++ "3")) rectangular_error
          (Some "html") (Some menu)))
  /\ matrix_input (says alice ("1" ++ nbsp ++ "2" ++ Py.nl ++ "3 4")) "det"
       init_world
     = (Returned tt,
        replied init_world
          (ReplyTo (says alice ("1" ++ nbsp ++ "2" ++ Py.nl ++ "3 4")) "-2"
             None (Some menu))).
Proof.
  split.
  - destruct (matrix_text_is_validated
                (says alice ("1 2" ++ Py.nl ++ "3")) ("1 2" ++ Py.nl ++ "3")
                "det" init_world eq_refl) as (_ & H & _).
    apply H; [|reflexivity].
    intros Hn. apply parse_rows_none in Hn. discriminate Hn.
  - destruct (matrix_text_is_validated
                (says alice ("1" ++ nbsp ++ "2" ++ Py.nl ++ "3 4"))
                ("1" ++ nbsp ++ "2" ++ Py.nl ++ "3 4")
                "det" init_world eq_refl) as (_ & _ & H & _).
    assert (Hp : parse_rows ("1" ++ nbsp ++ "2" ++ Py.nl ++ "3 4")
                 = Some [[1; 2]; [3; 4]])
      by reflexivity.
    assert (Hm : from_list [[1; 2]; [3; 4]]
                 = Returned (map (map of_Z) [[1; 2]; [3; 4]]))
      by reflexivity.
    destruct (H [[1; 2]; [3; 4]] _ Hp Hm) as [_ H'].
    etransitivity.
    + apply (H' calc_det); [discriminate|reflexivity].
    + vm_compute. reflexivity.
Defined.

(** The claim of C8 as it is worded fails on rows of unequal length that
    hold an entry [float] refuses: the text made of the rows [1 2] and [x]
    is answered by the numeric-input error, not by the rectangularity
    error. *)
Lemma unequal_rows_numeric_error :
  rectangular (rows_of ("1 2" ++ Py.nl ++ "x")) = false
  /\ matrix_input (says alice ("1 2" ++ Py.nl ++ "x")) "det" init_world
     = (Returned tt,
        replied init_world
          (ReplyTo (says alice ("1 2" ++ Py.nl ++ "x")) numeric_error
             (Some "html") (Some menu)))
  /\ matrix_input (says alice ("1 2" ++ Py.nl ++ "x")) "det" init_world
     <> (Returned tt,
         replied init_world
           (ReplyTo (says alice ("1 2" ++ Py.nl ++ "x")) rectangular_error
              (Some "html") (Some menu))).
Proof.
  repeat split; try reflexivity. discriminate.
Qed.

(** The guard of [broadcast_input]: a caller outside [ADMINS] gets no call
    and changes nothing. *)
Lemma broadcast_input_guard {C : Config} (message : Message) (w : World) :
  Py.mem_int (tg_id (msg_from message)) ADMINS = false ->
  broadcast_input message w = (Returned tt, w).
Proof. intros H. unfold broadcast_input. now rewrite H. Qed.

(** C6.  [change_report_status] and [list_reports] have no guard of their
    own: [alice], who is not an administrator, rejects the first report and
    is told so, and is sent the cards of the NEW reports. *)
Theorem review_actions_are_not_gated :
  Py.mem_int (tg_id alice) ADMINS = false
  /\ handle (CallbackUpdate (on_card alice "reject_report")) one_report
     = (Returned tt,
        {| db := {| users := users (db one_report);
                    reports := [with_status report1 REJECTED None] |};
           now := 0;
           calls := calls one_report
                    ++ [SendMessage 7 (Some "The issue has been rejected.")
                          None None] |})
  /\ handle (CallbackUpdate (presses alice "report_status_NEW" "")) one_report
     = (Returned tt,
        replied one_report
          (SendMessage 7 (Some (report_card report1)) (Some "html") None)).
Proof. repeat split. Qed.

End SampleFacts.

(** * Further properties of the handlers *)

(** ** The calls a handler issues *)

Section Calls.
Context {B : Builtins} {C : Config} {R : Rings} {L : MatrixLib}
  {Li : Limits} {Nt : NumberTheory} {Ev : Evaluators} {Gi : Git}.

Section Emits.
Context (P : ApiCall -> Prop).

Lemma emits_silent {A} (h : Handler A) :
  (forall w, calls (snd (h w)) = calls w) -> emits P h.
Proof.
  intros H w. exists []. rewrite H, app_nil_r. split; [reflexivity|constructor].
Qed.

Lemma emits_ret {A} (a : A) : emits P (ret a).
Proof. now apply emits_silent. Qed.

Lemma emits_raise {A} (e : Exn) : emits P (@raise A e).
Proof. now apply emits_silent. Qed.

Lemma emits_get_store : emits P get_store.
Proof. now apply emits_silent. Qed.

Lemma emits_put_store (s : Store) : emits P (put_store s).
Proof. now apply emits_silent. Qed.

Lemma emits_get_now : emits P get_now.
Proof. now apply emits_silent. Qed.

Lemma emits_api (c : ApiCall) : P c -> emits P (api c).
Proof. intros Hc w. exists [c]. split; [reflexivity|now constructor]. Qed.

Lemma emits_bind {A A'} (m : Handler A) (k : A -> Handler A') :
  emits P m -> (forall a, emits P (k a)) -> emits P (bind m k).
Proof.
  intros Hm Hk w. unfold bind. destruct (Hm w) as (cs & Hcs & HP).
  destruct (m w) as [[a|e] w']; cbn [snd] in *.
  - destruct (Hk a w') as (cs' & Hcs' & HP'). exists (cs ++ cs')%list.
    rewrite Hcs', Hcs, app_assoc. split; [reflexivity|].
    apply Forall_app. now split.
  - now exists cs.
Qed.

Lemma emits_after_send {A} (chat : Z) (text : string)
  (parse_mode : option string) (mk : option Markup) (k : Z -> Handler A) :
  P (SendMessage chat (Some text) parse_mode mk) ->
  emits P (k chat) ->
  emits P (bind (send_message chat text parse_mode mk) k).
Proof.
  intros Hc Hk w. unfold bind, send_message, api, ret. cbn.
  destruct (Hk (replied w (SendMessage chat (Some text) parse_mode mk)))
    as (cs & Hcs & HP).
  exists (SendMessage chat (Some text) parse_mode mk :: cs).
  unfold replied in Hcs. rewrite Hcs. cbn [calls].
  rewrite <- app_assoc. split; [reflexivity|now constructor].
Qed.

Lemma emits_for_each {A} (l : list A) (body : A -> Handler unit) :
  (forall a, emits P (body a)) -> emits P (for_each l body).
Proof.
  intros Hb. induction l as [|a l IH]; simpl.
  - apply emits_ret.
  - apply emits_bind; [apply Hb|intros _; apply IH].
Qed.

End Emits.

Lemma range_of_test (n : Z) :
  (n >=? MAX_MODULO) || (n <? 2) = false -> 2 <= n < MAX_MODULO.
Proof. intros H. apply orb_false_iff in H. lia. Qed.

End Calls.

Ltac emits_leaf :=
  cbn;
  first [ exact I | reflexivity | assumption
        | match goal with
          | H : (_ >=? MAX_MODULO) || (_ <? 2) = false |- _ =>
              exact (range_of_test _ H)
          end ].

Ltac emits_step :=
  lazymatch goal with
  | |- emits _ (bind (send_message _ _ _ _) _) =>
      apply emits_after_send; [emits_leaf|]
  | |- emits _ (bind _ _) => apply emits_bind; [ | intros ? ]
  | |- emits _ (send_message _ _ _ _) => unfold send_message
  | |- emits _ (ret _) => apply emits_ret
  | |- emits _ (raise _) => apply emits_raise
  | |- emits _ get_store => apply emits_get_store
  | |- emits _ (put_store _) => apply emits_put_store
  | |- emits _ get_now => apply emits_get_now
  | |- emits _ (api _) => apply emits_api; emits_leaf
  | |- emits _ (for_each _ _) => apply emits_for_each; intros ?
  | |- emits _ (match (if ?b then _ else _) with _ => _ end) =>
      destruct b; cbv beta iota
  | |- emits _ (match ?x with _ => _ end) => destruct x eqn:?
  end.

Ltac unfold_handlers :=
  unfold handle, on_command, on_next_step, on_callback,
    start_message, send_help, det, ref_input, inv_input, matrix_input,
    action_mapper, calc_det, calc_ref, calc_inv, logic_input, logic_output,
    ring_input, ring_output, inverse_input_ring, inverse_input_element,
    inverse_output, factorize_input, factorize_output, euclid_input,
    euclid_output, calc_input, calc_output, broadcast_input, broadcast,
    send_about, callback_inline, report_handling, cancel_report,
    choose_report_types, list_reports, change_report_status, link_handling,
    accept_link, back_func,
    User_get_or_create, ReportRecord_new, db_add_commit,
    ReportRecord_get_reports, ReportRecord_get_report_by_id,
    ReportRecord_change_status,
    void, get_db, close_db, reply_to, register_next_step_handler, index,
    text_of, text_tail.

Ltac emits_all := unfold_handlers; repeat emits_step.

Section Registrations.
Context {B : Builtins} {C : Config} {R : Rings} {L : MatrixLib}
  {Li : Limits} {Nt : NumberTheory} {Ev : Evaluators} {Gi : Git}.

(** Every registration of [inverse_output] made by a handler carries a
    modulus that passed the test of [inverse_input_element]. *)
Lemma handle_emits_modulus_in_range (u : Update) :
  emits modulus_in_range (handle u).
Proof. destruct u as [c message|k message|call]; [destruct c|destruct k|]; emits_all. Qed.

(** *** At most one registration, for the chat of the update *)

Lemma registrations_app (cs cs' : list ApiCall) :
  registrations (cs ++ cs') = (registrations cs ++ registrations cs')%list.
Proof. apply filter_app. Qed.

Lemma registrations_none (cs : list ApiCall) :
  Forall not_registration cs -> registrations cs = [].
Proof.
  induction 1 as [|c cs Hc _ IH]; [reflexivity|].
  unfold registrations in *. cbn. now rewrite Hc.
Qed.

Lemma registers_of_quiet {A} (chat : Z) (h : Handler A) :
  emits not_registration h -> registers_once chat h.
Proof.
  intros H w. destruct (H w) as (cs & Hcs & Hq). exists cs.
  split; [assumption|]. left. now apply registrations_none.
Qed.

Lemma registers_api (chat : Z) (k : Step) :
  registers_once chat (api (RegisterNextStepHandler chat k)).
Proof.
  intros w. exists [RegisterNextStepHandler chat k].
  split; [reflexivity|]. right. now exists k.
Qed.

Lemma registers_bind_l {A A'} (chat : Z) (m : Handler A) (k : A -> Handler A') :
  registers_once chat m -> (forall a, emits not_registration (k a)) ->
  registers_once chat (bind m k).
Proof.
  intros Hm Hk w. unfold bind. destruct (Hm w) as (cs & Hcs & Hr).
  destruct (m w) as [[a|e] w']; cbn [snd] in *.
  - destruct (Hk a w') as (cs' & Hcs' & Hq). exists (cs ++ cs')%list.
    rewrite Hcs', Hcs, app_assoc. split; [reflexivity|].
    now rewrite registrations_app, (registrations_none cs' Hq), app_nil_r.
  - now exists cs.
Qed.

Lemma registers_bind_r {A A'} (chat : Z) (m : Handler A) (k : A -> Handler A') :
  emits not_registration m -> (forall a, registers_once chat (k a)) ->
  registers_once chat (bind m k).
Proof.
  intros Hm Hk w. unfold bind. destruct (Hm w) as (cs & Hcs & Hq).
  destruct (m w) as [[a|e] w']; cbn [snd] in *.
  - destruct (Hk a w') as (cs' & Hcs' & Hr). exists (cs ++ cs')%list.
    rewrite Hcs', Hcs, app_assoc. split; [reflexivity|].
    now rewrite registrations_app, (registrations_none cs Hq).
  - exists cs. split; [assumption|]. left. now apply registrations_none.
Qed.

Lemma registers_after_send {A} (chat chat' : Z) (text : string)
  (parse_mode : option string) (mk : option Markup) (k : Z -> Handler A) :
  registers_once chat (k chat') ->
  registers_once chat (bind (send_message chat' text parse_mode mk) k).
Proof.
  intros Hk w. unfold bind, send_message, api, ret. cbn.
  destruct (Hk (replied w (SendMessage chat' (Some text) parse_mode mk)))
    as (cs & Hcs & Hr).
  exists (SendMessage chat' (Some text) parse_mode mk :: cs).
  unfold replied in Hcs. rewrite Hcs. cbn [calls].
  rewrite <- app_assoc. split; [reflexivity|exact Hr].
Qed.

Ltac quiet := solve [repeat emits_step].

Ltac registers_step :=
  first
    [ solve [apply registers_of_quiet; repeat emits_step]
    | lazymatch goal with
      | |- registers_once _ (bind (send_message _ _ _ _) _) =>
          apply registers_after_send
      | |- registers_once _ (bind _ _) =>
          first [ apply registers_bind_r; [quiet|intros ?]
                | apply registers_bind_l; [|intros ?; quiet] ]
      | |- registers_once _ (api (RegisterNextStepHandler _ _)) =>
          apply registers_api
      | |- registers_once _ (match ?x with _ => _ end) => destruct x
      end ].

Ltac registers_all := unfold_handlers; repeat registers_step.

Lemma handle_registers_once (u : Update) :
  registers_once (update_chat u) (handle u).
Proof.
  destruct u as [c message|k message|call]; [destruct c|destruct k|];
    cbn [update_chat]; registers_all.
Qed.

Lemma step_is_terminal (k : Step) (message : Message) :
  k <> inverse_input_element_step ->
  emits not_registration (on_next_step k message).
Proof.
  intros Hk. destruct k; try contradiction; emits_all.
Qed.

(** X1.  An update makes its handler register at most one next step, and
    only for the chat the update came from; among the registered steps only
    [inverse_input_element] registers a further one. *)
Theorem one_registration_for_own_chat (u : Update) (w : World) :
  exists cs,
    calls (snd (handle u w)) = (calls w ++ cs)%list
    /\ (registrations cs = []
        \/ exists k,
             registrations cs = [RegisterNextStepHandler (update_chat u) k])
    /\ (forall k message,
          u = NextStepUpdate k message -> k <> inverse_input_element_step ->
          registrations cs = []).
Proof.
  destruct (handle_registers_once u w) as (cs & Hcs & Hr).
  exists cs. repeat split; try assumption.
  intros k message -> Hk.
  destruct (step_is_terminal k message Hk w) as (cs' & Hcs' & Hq).
  cbn [handle] in Hcs. rewrite Hcs in Hcs'. apply app_inv_head in Hcs'.
  subst cs'. now apply registrations_none.
Qed.

(** X2.  The modulus bound into a registered [inverse_output] always
    satisfies 2 <= m < MAX_MODULO, whatever update made the registration;
    and with a modulus other than zero [inverse_output] raises no
    [ArithmeticError], so the dialogue never ends on a division by zero. *)
Theorem inverse_modulus_is_validated :
  (forall u w, exists cs,
      calls (snd (handle u w)) = (calls w ++ cs)%list
      /\ forall chat m,
          In (RegisterNextStepHandler chat (inverse_output_step m)) cs ->
          2 <= m < MAX_MODULO)
  /\ (forall message m w,
        m <> 0 ->
        match fst (inverse_output message m w) with
        | Raised e => is_ArithmeticError e = false
        | Returned _ => True
        end).
Proof.
  split.
  - intros u w. destruct (handle_emits_modulus_in_range u w) as (cs & Hcs & HP).
    exists cs. split; [assumption|]. intros chat m Hin.
    rewrite Forall_forall in HP. exact (HP _ Hin).
  - intros message m w Hm. unfold inverse_output. run.
    destruct (msg_text message) as [text|]; [|reflexivity].
    destruct (int (Py.strip text)) as [n|]; [|exact I].
    destruct (Z.eqb_spec m 0) as [->|_]; [contradiction|].
    destruct (find_inverse (n mod m) m) as [result|e'] eqn:Hf; [exact I|].
    destruct (is_ArithmeticError e') eqn:He'; [exact I|exact He'].
Qed.

End Registrations.

(** ** Who writes to the store *)

Section Writers.
Context {B : Builtins} {C : Config} {R : Rings} {L : MatrixLib}
  {Li : Limits} {Nt : NumberTheory} {Ev : Evaluators} {Gi : Git}.

Ltac same_db :=
  unfold void, get_db, close_db, send_message, reply_to,
    register_next_step_handler, index, text_of, text_tail;
  repeat lazymatch goal with
    | |- keeps _ (bind _ _) => apply keeps_bind; [ | intros ? ]
    | |- keeps _ (ret _) => apply keeps_ret
    | |- keeps _ (raise _) => apply keeps_raise
    | |- keeps _ (api _) => apply keeps_api
    | |- keeps _ get_store => apply keeps_get_store
    | |- keeps _ (for_each _ _) => apply keeps_for_each; intros ?
    | |- keeps _ (match ?x with _ => _ end) => destruct x
    end.

Lemma menus_keep_db (call : CallbackQuery) :
  keeps (fun s => s) (callback_inline call)
  /\ keeps (fun s => s) (cancel_report call)
  /\ keeps (fun s => s) (choose_report_types call)
  /\ keeps (fun s => s) (back_func call).
Proof.
  repeat split;
    unfold callback_inline, cancel_report, choose_report_types, back_func;
    same_db.
Qed.

Lemma change_report_status_db (call : CallbackQuery) (w : World) :
  db (snd (change_report_status call w)) = db w
  \/ call_data call = "reject_report" \/ call_data call = "close_report".
Proof.
  destruct (String.eqb_spec (call_data call) "reject_report") as [E|Hr];
    [now right; left|].
  destruct (String.eqb_spec (call_data call) "close_report") as [E|Hc];
    [now right; right|].
  left. unfold change_report_status. run.
  destruct (msg_text (call_message call)) as [text|]; [|reflexivity].
  destruct (nth_error (Py.split text) 2) as [tok|]; [|reflexivity].
  apply String.eqb_neq in Hr, Hc. rewrite Hr, Hc.
  destruct (call_data call =? "accept_report")%string; reflexivity.
Qed.

Lemma accept_link_db (call : CallbackQuery) (w : World) :
  db (snd (accept_link call w)) = db w
  \/ exists z, link_choice "accept_link" z (CallbackUpdate call).
Proof.
  unfold accept_link, ReportRecord_change_status. run.
  destruct (nth_error (Py.split (call_data call)) 1) as [tok|] eqn:Htok;
    [|now left].
  destruct (int tok) as [z|] eqn:Hz; [|now left].
  destruct (nth_error (Py.split (call_data call)) 0) as [cmd|] eqn:Hcmd;
    [|now left].
  destruct (String.eqb_spec cmd "accept_link") as [->|_]; [|now left].
  right. exists z, call, tok. auto.
Qed.

Lemma on_callback_db (call : CallbackQuery) (w : World) :
  db (snd (on_callback call w)) = db w
  \/ pressed "reject_report" (CallbackUpdate call)
  \/ pressed "close_report" (CallbackUpdate call)
  \/ exists z, link_choice "accept_link" z (CallbackUpdate call).
Proof.
  destruct (menus_keep_db call) as (Hi & Hc & Ht & Hb).
  unfold on_callback.
  destruct (_ =? "report")%string; [left; apply Hi|].
  destruct (_ =? "cancel")%string; [left; apply Hc|].
  destruct (_ =? "view_reports")%string; [left; apply Ht|].
  destruct (Py.mem_str _ _); [left; apply keeps_list_reports|].
  destruct (Py.mem_str _ _).
  - destruct (change_report_status_db call w) as [H|[H|H]]; [now left| |].
    + right; left. now exists call.
    + right; right; left. now exists call.
  - unfold bind at 1, index.
    destruct (nth_error (Py.split (call_data call)) 0) as [cmd|]; [|now left].
    unfold ret at 1. destruct (Py.mem_str cmd _).
    + destruct (accept_link_db call w) as [H|H]; [now left|now right; right; right].
    + destruct (_ =? "back_button")%string; left; [apply Hb|reflexivity].
Qed.

(** X3.  The store changes only under /start, under a report text, under
    the callbacks [reject_report] and [close_report] and under the
    confirmation of a link: every other update leaves it exactly as it
    was. *)
Theorem only_these_updates_write (u : Update) (w : World) :
  ~ writes u -> db (snd (handle u w)) = db w.
Proof.
  intros Hn. destruct u as [c message|k message|call]; cbn [handle].
  - apply (keeps_command c message). intros ->.
    apply Hn. left. now eexists.
  - apply (keeps_next_step k message). intros ->.
    apply Hn. right; left. now eexists.
  - destruct (on_callback_db call w) as [H|[H|[H|H]]]; [assumption|..];
      exfalso; apply Hn; unfold writes; tauto.
Qed.

End Writers.

(** ** The callbacks *)

Section Callbacks.
Context {B : Builtins} {C : Config} {R : Rings} {L : MatrixLib}
  {Li : Limits} {Nt : NumberTheory} {Ev : Evaluators} {Gi : Git}.

Ltac case_data data c :=
  destruct (String.eqb_spec data c) as [->|?]; [vm_compute; lia|].

(** X4.  The filters of the callback handlers exclude one another: a
    callback is accepted by one handler at most, so that the order in which
    the handlers are declared decides nothing; and [on_callback] runs the
    handler whose filter accepts the callback. *)
Theorem callback_filters_are_exclusive (call : CallbackQuery) :
  (List.length (filter (accepts call) callback_handlers) <= 1)%nat
  /\ (forall entry w,
        In entry callback_handlers -> accepts call entry = true ->
        on_callback call w = snd entry call w).
Proof.
  split.
  - destruct call as [data message who].
    case_data data "report"; case_data data "cancel";
      case_data data "view_reports"; case_data data "report_status_NEW";
      case_data data "report_status_REJECTED";
      case_data data "report_status_ACCEPTED";
      case_data data "report_status_CLOSED"; case_data data "accept_report";
      case_data data "reject_report"; case_data data "close_report";
      case_data data "back_button".
    repeat match goal with
           | H : data <> _ |- _ => apply String.eqb_neq in H
           end.
    cbv [callback_handlers filter accepts fst is_report is_cancel
           is_view_reports is_report_status is_report_action is_link_choice
           is_back_button call_data Py.mem_str existsb].
    repeat match goal with
           | H : (data =? _)%string = false |- _ => rewrite H; clear H
           end.
    cbn [orb].
    destruct (nth_error (Py.split data) 0) as [cmd|]; [|cbn; lia].
    destruct (_ || _); cbn; lia.
  - intros entry w Hin Hacc. unfold callback_handlers in Hin. cbn [In] in Hin.
    destruct Hin as [<-|[<-|[<-|[<-|[<-|[<-|[<-|[]]]]]]]];
      cbv [accepts fst snd is_report is_cancel is_view_reports
             is_report_status is_report_action is_link_choice is_back_button]
        in *.
    + destruct (String.eqb_spec (call_data call) "report") as [E|_];
        [|discriminate]. unfold on_callback. now rewrite E.
    + destruct (String.eqb_spec (call_data call) "cancel") as [E|_];
        [|discriminate]. unfold on_callback. now rewrite E.
    + destruct (String.eqb_spec (call_data call) "view_reports") as [E|_];
        [|discriminate]. unfold on_callback. now rewrite E.
    + unfold Py.mem_str in Hacc. cbn [existsb] in Hacc.
      unfold on_callback, Py.mem_str. cbn [existsb].
      repeat match type of Hacc with
             | context [(call_data call =? ?c)%string] =>
                 destruct (String.eqb_spec (call_data call) c) as [E|_];
                 [rewrite E; reflexivity|]
             end.
      discriminate.
    + rewrite on_callback_action; [reflexivity|].
      destruct (Py.mem_str _ _); [reflexivity|discriminate].
    + destruct (nth_error (Py.split (call_data call)) 0) as [cmd|] eqn:Hcmd;
        [|discriminate].
      apply (on_callback_link call cmd w Hcmd).
      unfold Py.mem_str in Hacc. cbn [existsb] in Hacc.
      destruct (String.eqb_spec cmd "accept_link"); [now left|].
      destruct (String.eqb_spec cmd "reject_link"); [now right|discriminate].
    + destruct (String.eqb_spec (call_data call) "back_button") as [E|_];
        [|discriminate]. unfold on_callback. now rewrite E.
Qed.

(** *** Tokens *)

(** The data of a parameterised button reads back as its two tokens. *)
Lemma split_pair (cmd tok : string) :
  token cmd -> token tok -> Py.split (cmd ++ " " ++ tok) = [cmd; tok].
Proof.
  intros [Hc Hc'] [Ht Ht'].
  change (cmd ++ " " ++ tok)%string with (cmd ++ String " " tok)%string.
  rewrite (PyFacts.split_token_byte cmd " " tok Hc Hc') by reflexivity.
  now rewrite (PyFacts.split_last tok Ht Ht').
Qed.

(** The third token of a report card is the id it prints. *)
Lemma card_id_token (r : ReportRecord) :
  token (str (r_id r)) ->
  nth_error (Py.split (report_card r)) 2 = Some (str (r_id r)).
Proof.
  intros [Hs Hne]. unfold report_card.
  match goal with
  | |- nth_error
         (Py.split ("Report id: " ++ str (r_id r) ++ Py.nl ++ ?rest)%string) 2
       = _ =>
      change ("Report id: " ++ str (r_id r) ++ Py.nl ++ rest)%string
        with ("Report"
              ++ String " "
                   ("id:"
                    ++ String " " (str (r_id r) ++ String Py.newline rest)))%string
  end.
  rewrite (PyFacts.split_token_byte "Report" " ");
    [|reflexivity|discriminate|reflexivity|reflexivity].
  rewrite (PyFacts.split_token_byte "id:" " ");
    [|reflexivity|discriminate|reflexivity|reflexivity].
  rewrite (PyFacts.split_token_byte (str (r_id r)) Py.newline);
    [reflexivity|assumption|assumption|reflexivity|reflexivity].
Qed.

(** *** Cards and buttons read back *)

(** X5.  The id that [change_report_status] cuts out of a card is the id
    [list_reports] printed on it: under the card of a report, [accept_report]
    asks for a link and binds that id into [link_handling], and
    [reject_report] hands that id to the store. *)
Theorem card_round_trip (call : CallbackQuery) (w : World) (r : ReportRecord) :
  token (str (r_id r)) -> int (str (r_id r)) = Some (r_id r) ->
  msg_text (call_message call) = Some (report_card r) ->
  (call_data call = "accept_report" ->
   change_report_status call w
   = (Returned tt,
      {| db := db w; now := now w;
         calls := calls w
                  ++ [SendMessage (msg_chat_id (call_message call))
                        (Some "Provide a link to the GitHub issue, please.")
                        None None;
                      RegisterNextStepHandler (msg_chat_id (call_message call))
                        (link_handling_step (KStr (str (r_id r))))] |}))
  /\ (call_data call = "reject_report" ->
      change_report_status call w
      = (Returned tt,
         {| db := change_status_store (db w) (r_id r) "reject_report" None;
            now := now w;
            calls := calls w
                     ++ [SendMessage (msg_chat_id (call_message call))
                           (Some "The issue has been rejected.") None None] |})).
Proof.
  intros Htok Hint Ht. pose proof (card_id_token r Htok) as Hid.
  unfold change_report_status, ReportRecord_change_status. run.
  rewrite Ht, Hid. split; intros ->; cbn.
  - now rewrite <- app_assoc.
  - now rewrite Hint.
Qed.

(** X6.  The buttons [link_handling] attaches read back: their data is
    routed to [accept_link], which finds in it the id the buttons were built
    for; pressing Reject asks again and binds the same id, pressing Confirm
    is the confirmation for that id. *)
Theorem link_buttons_round_trip (message : Message) (id : Key) (z : Z) (w : World) :
  token (show_key id) -> int (show_key id) = Some z ->
  link_handling message id w
  = (Returned tt,
     replied w
       (SendMessage (msg_chat_id message) (Some (link_question (msg_text message)))
          (Some "html")
          (Some (InlineKeyboardMarkup
                   [("Confirm", "accept_link " ++ show_key id);
                    ("Reject", "reject_link " ++ show_key id)]))))
  /\ (forall call w',
        call_data call = "reject_link " ++ show_key id ->
        handle (CallbackUpdate call) w'
        = (Returned tt,
           {| db := db w'; now := now w';
              calls := calls w'
                       ++ [SendMessage (msg_chat_id (call_message call))
                             (Some "Please provide the link again.") None None;
                           RegisterNextStepHandler
                             (msg_chat_id (call_message call))
                             (link_handling_step (KInt z))] |}))
  /\ (forall call,
        call_data call = "accept_link " ++ show_key id ->
        link_choice "accept_link" z (CallbackUpdate call)).
Proof.
  intros Htok Hint.
  assert (Hr : Py.split ("reject_link " ++ show_key id)
               = ["reject_link"; show_key id]).
  { apply (split_pair "reject_link" (show_key id)); [|assumption].
    split; [reflexivity|discriminate]. }
  assert (Ha : Py.split ("accept_link " ++ show_key id)
               = ["accept_link"; show_key id]).
  { apply (split_pair "accept_link" (show_key id)); [|assumption].
    split; [reflexivity|discriminate]. }
  split; [reflexivity|split].
  - intros call w' Hd. cbn [handle].
    rewrite (on_callback_link call "reject_link" w')
      by (rewrite ?Hd, ?Hr; auto).
    apply (reject_link_world call w' (show_key id) z);
      rewrite ?Hd, ?Hr; auto.
  - intros call Hd. exists call, (show_key id).
    rewrite Hd, Ha. auto.
Qed.

(** X7.  [accept_link] does nothing at all when it cannot read what it
    needs: data without an id raises [IndexError], an id that is no integer
    raises [ValueError], and on confirmation a message without text raises
    [AttributeError] and a message without a second line, or with nothing
    after the label on it, raises [IndexError]; in each case no call is
    issued and the store is left alone. *)
Theorem accept_link_unreadable (call : CallbackQuery) (w : World) :
  (nth_error (Py.split (call_data call)) 1 = None ->
   accept_link call w = (Raised IndexError, w))
  /\ (forall tok,
        nth_error (Py.split (call_data call)) 1 = Some tok -> int tok = None ->
        accept_link call w = (Raised ValueError, w))
  /\ (forall tok z,
        nth_error (Py.split (call_data call)) 0 = Some "accept_link" ->
        nth_error (Py.split (call_data call)) 1 = Some tok -> int tok = Some z ->
        (msg_text (call_message call) = None ->
         accept_link call w = (Raised AttributeError, w))
        /\ (forall text,
              msg_text (call_message call) = Some text ->
              nth_error (Py.lines text) 1 = None
              \/ (exists line, nth_error (Py.lines text) 1 = Some line
                               /\ nth_error (Py.split line) 1 = None) ->
              accept_link call w = (Raised IndexError, w))).
Proof.
  unfold accept_link. run. split; [|split].
  - now intros ->.
  - intros tok -> Hz. now rewrite Hz.
  - intros tok z H0 H1 Hz. rewrite H0, H1, Hz, String.eqb_refl. split.
    + now intros ->.
    + intros text -> [->|(line & -> & ->)]; reflexivity.
Qed.

(** X8.  [change_report_status] reads the id before anything else: under a
    message without text it raises [AttributeError], under a text of fewer
    than three tokens [IndexError], with no call issued and the store left
    alone, whatever the action. *)
Theorem change_report_status_unreadable (call : CallbackQuery) (w : World) :
  (msg_text (call_message call) = None ->
   change_report_status call w = (Raised AttributeError, w))
  /\ (forall text,
        msg_text (call_message call) = Some text ->
        (List.length (Py.split text) < 3)%nat ->
        change_report_status call w = (Raised IndexError, w)).
Proof.
  unfold change_report_status. run. split.
  - now intros ->.
  - intros text -> Hlen.
    assert (Hn : nth_error (Py.split text) 2 = None)
      by (apply nth_error_None; lia).
    now rewrite Hn.
Qed.

End Callbacks.

(** ** The other dialogues *)

Section MoreDialogues.
Context {B : Builtins} {C : Config} {R : Rings} {L : MatrixLib}
  {Li : Limits} {Nt : NumberTheory} {Ev : Evaluators} {Gi : Git}.

(** X9.  /factorize takes the closed range 2 <= n <= FACTORIZE_MAX: inside
    it the reply is the number, " = " and the rendered factorisation, which
    is also the value returned; outside it the reply states the range, is
    sent without keyboard, and nothing is returned. *)
Theorem factorize_takes_closed_range
  (message : Message) (text : string) (n : Z) (w : World) :
  msg_text message = Some text -> int (Py.strip text) = Some n ->
  (2 <= n <= FACTORIZE_MAX ->
   factorize_output message w
   = (Returned (Some (str n ++ " = " ++ factorize_str (factorize n))),
      replied w
        (SendMessage (msg_chat_id message)
           (Some (str n ++ " = " ++ factorize_str (factorize n))) None None)))
  /\ (n < 2 \/ FACTORIZE_MAX < n ->
      factorize_output message w
      = (Returned None,
         replied w
           (SendMessage (msg_chat_id message) (Some factorize_range) None None))).
Proof.
  intros Ht Hn. unfold factorize_output. run. rewrite Ht, Hn. split; intros H.
  - replace ((n <? 2) || (n >? FACTORIZE_MAX)) with false; [reflexivity|].
    symmetry. apply orb_false_iff. lia.
  - replace ((n <? 2) || (n >? FACTORIZE_MAX)) with true; [reflexivity|].
    symmetry. apply orb_true_iff. lia.
Qed.

Lemma unpack_two_ints_some (fields : list string) (a b : Z) :
  unpack_two_ints fields = Some (a, b)
  <-> exists fa fb, fields = [fa; fb] /\ int fa = Some a /\ int fb = Some b.
Proof.
  split.
  - destruct fields as [|fa [|fb [|fc rest]]]; cbn; try discriminate.
    + destruct (int fa); discriminate.
    + destruct (int fa) as [x|] eqn:Ha; [|discriminate].
      destruct (int fb) as [y|] eqn:Hb; [|discriminate].
      intros [= <- <-]. now exists fa, fb.
    + destruct (int fa); [|discriminate]. destruct (int fb); discriminate.
  - intros (fa & fb & -> & Ha & Hb). cbn. now rewrite Ha, Hb.
Qed.

(** X10.  /euclid wants exactly two fields separated by one blank, both
    integers: then it replies with, and returns, the answer built from
    [ext_gcd]; any other text (one number, three, two blanks in a row, a
    field that is no integer) gets "Input data error". *)
Theorem euclid_wants_two_fields (message : Message) (text : string) (w : World) :
  msg_text message = Some text ->
  (forall fa fb a b,
      Py.split_on " "%char (Py.strip text) = [fa; fb] ->
      int fa = Some a -> int fb = Some b ->
      exists d x y,
        ext_gcd a b = (d, x, y)
        /\ euclid_output message w
           = (Returned (Some (euclid_answer a b d x y)),
              replied w
                (SendMessage (msg_chat_id message)
                   (Some (euclid_answer a b d x y)) (Some "html") None)))
  /\ (~ (exists fa fb a b,
           Py.split_on " "%char (Py.strip text) = [fa; fb]
           /\ int fa = Some a /\ int fb = Some b) ->
      euclid_output message w
      = (Returned None,
         replied w
           (SendMessage (msg_chat_id message) (Some "Input data error") None
              (Some menu)))).
Proof.
  intros Ht. unfold euclid_output. run. rewrite Ht. split.
  - intros fa fb a b Hf Ha Hb.
    assert (Hu : unpack_two_ints (Py.split_on " "%char (Py.strip text))
                 = Some (a, b))
      by (apply unpack_two_ints_some; now exists fa, fb).
    rewrite Hu. destruct (ext_gcd a b) as [[d x] y]. now exists d, x, y.
  - intros Hn.
    destruct (unpack_two_ints (Py.split_on " "%char (Py.strip text)))
      as [[a b]|] eqn:Hu; [|reflexivity].
    exfalso. apply Hn. apply unpack_two_ints_some in Hu.
    destruct Hu as (fa & fb & H1 & H2 & H3). now exists fa, fb, a, b.
Qed.

(** X11.  What the evaluator raises: [calc_output] answers every error of
    the parser, the complexity limit, [ZeroDivisionError], [ArithmeticError]
    and [ValueError] with one message and returns nothing, and lets any other
    built-in exception through untouched; [logic_output] does the same but
    also lets the two arithmetic errors through. *)
Theorem evaluator_errors_are_answered (message : Message) (w : World) :
  (forall e,
      safe_eval (msg_text message) = inr e ->
      if caught_by_calc e
      then exists text mk,
          calc_output message w
          = (Returned None,
             replied w (SendMessage (msg_chat_id message) (Some text) None mk))
      else exists x, e = BuiltinError x /\ calc_output message w = (Raised x, w))
  /\ (forall e,
        build_table (msg_text message) = inr e ->
        if caught_by_logic e
        then exists text,
            logic_output message w
            = (Returned None,
               replied w
                 (SendMessage (msg_chat_id message) (Some text) None (Some menu)))
        else exists x,
            e = BuiltinError x /\ logic_output message w = (Raised x, w)).
Proof.
  split; intros e He.
  - unfold calc_output. rewrite He. run.
    destruct e as [| | | |x]; cbn; try (now eexists; eexists).
    destruct x; cbn; try (now eexists; eexists); now eexists.
  - unfold logic_output. rewrite He. run.
    destruct e as [| | | |x]; cbn; try (now eexists).
    destruct x; cbn; try (now eexists); now eexists.
Qed.

(** X12.  Whenever one of the answering handlers returns a text, it has
    issued exactly one call, and that call sends this very text to the chat
    of the message: what is logged as the result is what the user was
    sent. *)
Theorem returned_answer_was_sent
  (message : Message) (command : string) (modulo : Z)
  (h : Handler (option string)) (w w' : World) (answer : string) :
  In h (answering_handlers message command modulo) ->
  h w = (Returned (Some answer), w') ->
  exists parse_mode mk,
    w' = replied w
           (SendMessage (msg_chat_id message) (Some answer) parse_mode mk).
Proof.
  unfold answering_handlers. cbn [In].
  intros [<-|[<-|[<-|[<-|[<-|[<-|[]]]]]]];
    unfold ring_output, inverse_output, factorize_output, euclid_output,
      calc_output, logic_output; run;
    repeat match goal with
           | |- context [match ?x with _ => _ end] =>
               lazymatch x with
               | context [match _ with _ => _ end] => fail
               | _ => destruct x
               end
           end;
    first [discriminate | intros [= <- <-]; do 2 eexists; reflexivity].
Qed.

(** X13.  The command bound by [ring_input] is the text of the command
    message without its first character, and [ring_output] only knows the
    two commands by their exact name: with any other bound command a valid
    modulus is answered by nothing at all. *)
Theorem ring_command_must_be_exact
  (message reply : Message) (c : ascii) (command text : string) (n : Z)
  (w w' : World) :
  msg_text message = Some (String c command) ->
  ring_input message w
  = (Returned tt,
     {| db := db w; now := now w;
        calls := calls w
                 ++ [SendMessage (msg_chat_id message)
                       (Some "Enter the ring modulus:") None None;
                     RegisterNextStepHandler (msg_chat_id message)
                       (ring_output_step command)] |})
  /\ (msg_text reply = Some text -> int (Py.strip text) = Some n ->
      2 <= n < MAX_MODULO ->
      command <> "idempotents" -> command <> "nilpotents" ->
      ring_output reply command w' = (Returned None, w')).
Proof.
  intros Ht. split.
  - unfold ring_input. run. rewrite Ht. cbn. now rewrite <- app_assoc.
  - intros Hr Hn Hrange Hi Hnp. unfold ring_output. run. rewrite Hr, Hn.
    replace ((n >=? MAX_MODULO) || (n <? 2)) with false
      by (symmetry; apply orb_false_iff; lia).
    apply String.eqb_neq in Hi, Hnp. now rewrite Hi, Hnp.
Qed.

(** X14.  [inverse_output] consults [find_inverse] on a residue only: with
    a positive modulus, two ring libraries that agree on the elements
    0 <= x < modulo give the same reply and the same result. *)
Theorem find_inverse_sees_residues_only
  (R1 R2 : Rings) (message : Message) (m : Z) (w : World) :
  0 < m ->
  (forall x, 0 <= x < m -> @find_inverse R1 x m = @find_inverse R2 x m) ->
  inverse_output (R := R1) message m w = inverse_output (R := R2) message m w.
Proof.
  intros Hm Hsame. unfold inverse_output. run.
  destruct (msg_text message) as [text|]; [|reflexivity].
  destruct (int (Py.strip text)) as [n|]; [|reflexivity].
  destruct (Z.eqb_spec m 0) as [->|_]; [lia|].
  now rewrite (Hsame (n mod m) (Z.mod_pos_bound n m Hm)).
Qed.

End MoreDialogues.

(** ** Keyboards *)

Section Keyboards.
Context {B : Builtins} {C : Config} {R : Rings} {L : MatrixLib}
  {Li : Limits} {Nt : NumberTheory} {Ev : Evaluators} {Gi : Git}.

Lemma has_handler_exact (d : string) :
  In d ["report"; "cancel"; "view_reports"; "report_status_NEW";
        "report_status_REJECTED"; "report_status_ACCEPTED";
        "report_status_CLOSED"; "accept_report"; "reject_report";
        "close_report"; "back_button"] ->
  has_handler d.
Proof.
  intros Hd [data message who] E. cbn [call_data] in E. subst data.
  cbn [In] in Hd.
  repeat (destruct Hd as [<-|Hd];
          [first [ exists (is_report, callback_inline); split;
                   [cbn; tauto|reflexivity]
                 | exists (is_cancel, cancel_report); split;
                   [cbn; tauto|reflexivity]
                 | exists (is_view_reports, choose_report_types); split;
                   [cbn; tauto|reflexivity]
                 | exists (is_report_status, list_reports); split;
                   [cbn; tauto|reflexivity]
                 | exists (is_report_action, change_report_status); split;
                   [cbn; tauto|reflexivity]
                 | exists (is_back_button, back_func); split;
                   [cbn; tauto|reflexivity] ]|]).
  contradiction.
Qed.

Lemma has_handler_link (cmd tok : string) :
  cmd = "accept_link" \/ cmd = "reject_link" -> token tok ->
  has_handler (cmd ++ " " ++ tok).
Proof.
  intros Hcmd Htok call E. exists (is_link_choice, accept_link).
  split; [cbn; tauto|]. unfold accepts, is_link_choice. cbn [fst].
  assert (Hc : token cmd).
  { destruct Hcmd as [-> | ->]; (split; [reflexivity|discriminate]). }
  rewrite E, (split_pair cmd tok Hc Htok). cbn [nth_error].
  destruct Hcmd as [-> | ->]; reflexivity.
Qed.

Ltac live_leaf :=
  let d := fresh "d" in
  let Hd := fresh "Hd" in
  intros d Hd;
  cbv [markup_of offered get_report_menu get_cancel_menu get_type_report_menu
         get_admin_menu menu hide_menu] in Hd;
  repeat match type of Hd with
         | context [if ?b then _ else _] => destruct b
         end;
  cbn [map snd In app] in Hd;
  repeat (destruct Hd as [<-|Hd];
          [first [ apply has_handler_exact; cbn; tauto
                 | apply (has_handler_link "accept_link"); [now left|assumption]
                 | apply (has_handler_link "reject_link"); [now right|assumption] ]
          |]);
  contradiction.

Ltac emits_leaf ::= live_leaf.

(** X15.  No keyboard the handlers send has a dead button: whatever the
    update, each callback data offered by a call its handler issues is
    accepted by one of the callback handlers (for the two buttons of
    [link_handling], as soon as the id bound to the step is one token). *)
Theorem every_button_has_a_handler (u : Update) (w : World) :
  (forall id message,
      u = NextStepUpdate (link_handling_step id) message -> token (show_key id)) ->
  exists cs,
    calls (snd (handle u w)) = (calls w ++ cs)%list
    /\ forall c d, In c cs -> In d (offered (markup_of c)) -> has_handler d.
Proof.
  intros Htok.
  enough (H : emits live_buttons (handle u)).
  { destruct (H w) as (cs & Hcs & HP). exists cs. split; [assumption|].
    intros c d Hc. rewrite Forall_forall in HP. exact (HP c Hc d). }
  destruct u as [c message|k message|call]; [destruct c|destruct k|];
    try (pose proof (Htok _ _ eq_refl) as Hid); clear Htok; emits_all.
Qed.

End Keyboards.

(** ** Administrators *)

Section Administrators.
Context {B : Builtins} {C : Config} {R : Rings} {L : MatrixLib}
  {Li : Limits} {Nt : NumberTheory} {Ev : Evaluators} {Gi : Git}.

Ltac emits_leaf ::= cbn; reflexivity.

(** X16.  The menus keep the review away from the others: to a user
    outside [ADMINS] the menu of /help offers only "report" and the menu of
    report types offers nothing, [get_admin_menu] builds no keyboard, and so
    every card [list_reports] sends on such a user's callback goes out
    without buttons. *)
Theorem non_admin_is_offered_only_report (call : CallbackQuery) (w : World) :
  Py.mem_int (tg_id (call_from call)) ADMINS = false ->
  (forall d,
      In d (offered (Some (get_report_menu (tg_id (call_from call))))
            ++ offered (Some (get_type_report_menu (tg_id (call_from call))))
            ++ offered (get_admin_menu call)) ->
      d = "report")
  /\ exists cs,
      calls (snd (list_reports call w)) = (calls w ++ cs)%list
      /\ Forall bare_card cs.
Proof.
  intros Hn. split.
  - unfold get_report_menu, get_type_report_menu, get_admin_menu.
    rewrite Hn, andb_false_r. cbn. intros d [<-|[]]. reflexivity.
  - assert (Hmk : get_admin_menu call = None).
    { unfold get_admin_menu. now rewrite Hn, andb_false_r. }
    enough (H : emits bare_card (list_reports call)) by apply H.
    unfold list_reports. rewrite Hmk. emits_all.
Qed.

(** X17.  /broadcast is guarded in the handler itself: from a sender
    outside [ADMINS] the command issues no call and changes nothing; from an
    administrator it asks for the text and registers [broadcast]. *)
Theorem broadcast_is_guarded (message : Message) (w : World) :
  (Py.mem_int (tg_id (msg_from message)) ADMINS = false ->
   handle (CommandUpdate cmd_broadcast message) w = (Returned tt, w))
  /\ (Py.mem_int (tg_id (msg_from message)) ADMINS = true ->
      handle (CommandUpdate cmd_broadcast message) w
      = (Returned tt,
         {| db := db w; now := now w;
            calls := calls w
                     ++ [SendMessage (msg_chat_id message)
                           (Some "Message for mailing:") None None;
                         RegisterNextStepHandler (msg_chat_id message)
                           broadcast_step] |})).
Proof.
  cbn [handle on_command]. unfold broadcast_input. split; intros ->; cbn.
  - reflexivity.
  - run. now rewrite <- app_assoc.
Qed.

Lemma rectangular_same_length {A} (l : list (list A)) (r r' : list A) :
  rectangular l = true -> In r l -> In r' l ->
  List.length r = List.length r'.
Proof.
  destruct l as [|r0 rs]; [intros _ []|]. cbn [rectangular]. intros H.
  rewrite forallb_forall in H.
  assert (G : forall x, In x (r0 :: rs) -> List.length x = List.length r0).
  { intros x [<-|Hx]; [reflexivity|]. now apply Nat.eqb_eq, H. }
  intros Hr Hr'. now rewrite (G r Hr), (G r' Hr').
Qed.

(** X18.  A blank line inside a matrix text is an empty row: when the
    entries all convert and some other line holds an entry, the rows are of
    unequal length and the reply is the rectangularity error. *)
Theorem blank_line_breaks_the_matrix {LS : MatrixLibSpec L}
  (message : Message) (text action : string) (w : World) :
  msg_text message = Some text -> ~ not_numeric text ->
  In [] (rows_of text) ->
  (exists row, In row (rows_of text) /\ row <> []) ->
  matrix_input message action w
  = (Returned tt,
     replied w (ReplyTo message rectangular_error (Some "html") (Some menu))).
Proof.
  intros Ht Hn Hblank (row & Hrow & Hne).
  assert (Hrect : rectangular (rows_of text) = false).
  { destruct (rectangular (rows_of text)) eqn:Er; [|reflexivity].
    pose proof (rectangular_same_length _ _ _ Er Hblank Hrow) as Hl.
    destruct row; [contradiction|discriminate]. }
  unfold matrix_input. run. rewrite Ht.
  destruct (parse_rows text) as [lst|] eqn:Hp.
  - rewrite <- (parse_rows_shape text lst Hp) in Hrect.
    now rewrite (from_list_sizes lst Hrect).
  - exfalso. apply Hn. now apply parse_rows_none.
Qed.

End Administrators.

(** ** The further properties in the sample environment *)

Module CoverageFacts.
Import Sample SampleFacts.

Lemma token_1 : token (str 1).
Proof. split; [reflexivity|discriminate]. Qed.

Lemma one_registration_for_own_chat_witness :
  exists cs,
    calls (snd (handle (NextStepUpdate (matrix_input_step "det")
                          (says alice ("1 2" ++ Py.nl ++ "3 4"))) init_world))
    = (calls init_world ++ cs)%list
    /\ registrations cs = [].
Proof.
  destruct (one_registration_for_own_chat
              (NextStepUpdate (matrix_input_step "det")
                 (says alice ("1 2" ++ Py.nl ++ "3 4")))
              init_world) as (cs & H1 & _ & H3).
  exists cs. split; [exact H1|].
  apply (H3 (matrix_input_step "det") (says alice ("1 2" ++ Py.nl ++ "3 4"))
           eq_refl).
  discriminate.
Defined.

Lemma inverse_modulus_is_validated_witness :
  4 <> 0
  /\ match fst (inverse_output (says alice "2") 4 init_world) with
     | Raised e => is_ArithmeticError e = false
     | Returned _ => True
     end.
Proof.
  split; [discriminate|].
  apply (proj2 inverse_modulus_is_validated). discriminate.
Defined.

Lemma only_these_updates_write_witness :
  db (snd (handle (CallbackUpdate (on_card admin "accept_report")) one_report))
  = db one_report.
Proof.
  apply only_these_updates_write.
  intros [(m & H)|[(m & H)|[(c & H & D)|[(c & H & D)|(z & c & tok & H & H0 & _)]]]];
    try discriminate; injection H as <-; discriminate.
Defined.

Lemma callback_filters_are_exclusive_witness :
  on_callback (on_card admin "reject_report") one_report
  = change_report_status (on_card admin "reject_report") one_report.
Proof.
  apply (proj2 (callback_filters_are_exclusive (on_card admin "reject_report"))
           (is_report_action, change_report_status) one_report).
  - cbn. tauto.
  - reflexivity.
Defined.

Lemma card_round_trip_witness :
  change_report_status (on_card admin "reject_report") one_report
  = (Returned tt,
     {| db := change_status_store (db one_report) 1 "reject_report" None;
        now := 0;
        calls := calls one_report
                 ++ [SendMessage 1000 (Some "The issue has been rejected.")
                       None None] |}).
Proof.
  assert (Hi : int (str 1) = Some 1) by reflexivity.
  exact (proj2 (card_round_trip (on_card admin "reject_report") one_report
                  report1 token_1 Hi eq_refl) eq_refl).
Defined.

Lemma link_buttons_round_trip_witness :
  link_choice "accept_link" 1
    (CallbackUpdate (presses admin ("accept_link " ++ show_key (KStr "1")) ""))
  /\ offered (markup_of
                (SendMessage 1000 (Some (link_question (Some "http://x/1")))
                   (Some "html")
                   (Some (InlineKeyboardMarkup
                            [("Confirm", "accept_link 1");
                             ("Reject", "reject_link 1")]))))
     = ["accept_link 1"; "reject_link 1"].
Proof.
  assert (Hi : int (show_key (KStr "1")) = Some 1) by reflexivity.
  destruct (link_buttons_round_trip (says admin "http://x/1") (KStr "1") 1
              init_world token_1 Hi) as (_ & _ & H).
  split; [|reflexivity].
  apply H. reflexivity.
Defined.

Lemma accept_link_unreadable_witness :
  accept_link (presses admin "accept_link" "Is the link provided correct?")
    one_report
  = (Raised IndexError, one_report).
Proof.
  apply (proj1 (accept_link_unreadable
                  (presses admin "accept_link" "Is the link provided correct?")
                  one_report)).
  reflexivity.
Defined.

Lemma change_report_status_unreadable_witness :
  change_report_status (presses admin "reject_report" "no id") one_report
  = (Raised IndexError, one_report).
Proof.
  apply (proj2 (change_report_status_unreadable
                  (presses admin "reject_report" "no id") one_report) "no id").
  - reflexivity.
  - apply Nat.ltb_lt. reflexivity.
Defined.

Lemma factorize_takes_closed_range_witness :
  factorize_output (says alice "12") init_world
  = (Returned (Some "12 = 2 * 2 * 3"),
     replied init_world (SendMessage 7 (Some "12 = 2 * 2 * 3") None None)).
Proof.
  assert (Hi : int (Py.strip "12") = Some 12) by reflexivity.
  etransitivity.
  - apply (proj1 (factorize_takes_closed_range (says alice "12") "12" 12
                    init_world eq_refl Hi)).
    split; discriminate.
  - vm_compute. reflexivity.
Defined.

(** Two blanks in a row are refused; white space around the two numbers,
    a no-break space included, is stripped. *)
Lemma euclid_wants_two_fields_witness :
  euclid_output (says alice "12  18") init_world
  = (Returned None,
     replied init_world
       (SendMessage 7 (Some "Input data error") None (Some menu)))
  /\ exists d x y,
      ext_gcd 12 18 = (d, x, y)
      /\ euclid_output (says alice ("12 18 " ++ nbsp)) init_world
         = (Returned (Some (euclid_answer 12 18 d x y)),
            replied init_world
              (SendMessage 7 (Some (euclid_answer 12 18 d x y)) (Some "html")
                 None)).
Proof.
  split.
  - apply (proj2 (euclid_wants_two_fields (says alice "12  18") "12  18"
                    init_world eq_refl)).
    intros (fa & fb & a & b & H & _). discriminate H.
  - assert (Ha : int "12" = Some 12) by reflexivity.
    assert (Hb : int "18" = Some 18) by reflexivity.
    assert (Hf : Py.split_on " "%char (Py.strip ("12 18 " ++ nbsp))
                 = ["12"; "18"]) by reflexivity.
    exact (proj1 (euclid_wants_two_fields (says alice ("12 18 " ++ nbsp))
                    ("12 18 " ++ nbsp) init_world eq_refl)
             "12" "18" 12 18 Hf Ha Hb).
Defined.

Lemma evaluator_errors_are_answered_witness :
  exists text mk,
    calc_output (says alice "1/0") init_world
    = (Returned None, replied init_world (SendMessage 7 (Some text) None mk)).
Proof.
  assert (He : safe_eval (msg_text (says alice "1/0"))
               = inr (BuiltinError ZeroDivisionError)) by reflexivity.
  exact (proj1 (evaluator_errors_are_answered (says alice "1/0") init_world)
           (BuiltinError ZeroDivisionError) He).
Defined.

Lemma returned_answer_was_sent_witness :
  exists parse_mode mk,
    replied init_world (SendMessage 7 (Some "12 = 2 * 2 * 3") None None)
    = replied init_world (SendMessage 7 (Some "12 = 2 * 2 * 3") parse_mode mk).
Proof.
  apply (returned_answer_was_sent (says alice "12") "idempotents" 7
           (factorize_output (says alice "12")) init_world
           (replied init_world (SendMessage 7 (Some "12 = 2 * 2 * 3") None None))
           "12 = 2 * 2 * 3").
  - cbn. tauto.
  - reflexivity.
Defined.

Lemma ring_command_must_be_exact_witness :
  ring_output (says alice "6") "idempotents 6" init_world
  = (Returned None, init_world).
Proof.
  assert (Hi : int (Py.strip "6") = Some 6) by reflexivity.
  apply (proj2 (ring_command_must_be_exact
                  (says alice "/idempotents 6") (says alice "6") "/"%char
                  "idempotents 6" "6" 6 init_world init_world eq_refl));
    try discriminate; try assumption; try reflexivity.
  split; [discriminate|reflexivity].
Defined.

Lemma every_button_has_a_handler_witness :
  exists cs,
    calls (snd (handle (CommandUpdate cmd_help (says admin "/help"))
                  one_report))
    = (calls one_report ++ cs)%list
    /\ forall c d, In c cs -> In d (offered (markup_of c)) -> has_handler d.
Proof.
  apply every_button_has_a_handler. intros id message H. discriminate H.
Defined.

Lemma non_admin_is_offered_only_report_witness :
  exists cs,
    calls (snd (list_reports (presses alice "report_status_NEW" "") one_report))
    = (calls one_report ++ cs)%list
    /\ Forall bare_card cs.
Proof.
  assert (Hn : Py.mem_int
                 (tg_id (call_from (presses alice "report_status_NEW" "")))
                 ADMINS = false) by reflexivity.
  apply (proj2 (non_admin_is_offered_only_report
                  (presses alice "report_status_NEW" "") one_report Hn)).
Defined.

Lemma broadcast_is_guarded_witness :
  handle (CommandUpdate cmd_broadcast (says alice "/broadcast")) one_report
  = (Returned tt, one_report).
Proof.
  apply (proj1 (broadcast_is_guarded (says alice "/broadcast") one_report)).
  reflexivity.
Defined.

Lemma blank_line_breaks_the_matrix_witness :
  matrix_input (says alice ("1 2" ++ Py.nl ++ Py.nl ++ "3 4")) "det" init_world
  = (Returned tt,
     replied init_world
       (ReplyTo (says alice ("1 2" ++ Py.nl ++ Py.nl ++ "3 4"))
          rectangular_error (Some "html") (Some menu))).
Proof.
  apply (blank_line_breaks_the_matrix
           (says alice ("1 2" ++ Py.nl ++ Py.nl ++ "3 4"))
           ("1 2" ++ Py.nl ++ Py.nl ++ "3 4") "det" init_world eq_refl).
  - intros Hn. apply parse_rows_none in Hn. discriminate Hn.
  - cbn. tauto.
  - exists ["1"; "2"]. split; [cbn; tauto|discriminate].
Defined.

Lemma find_inverse_sees_residues_only_witness :
  inverse_output (R := rings) (says alice "-5") 7 init_world
  = inverse_output (R := residues_only) (says alice "-5") 7 init_world.
Proof.
  apply find_inverse_sees_residues_only; [reflexivity|].
  intros x Hx. cbn.
  replace ((0 <=? x) && (x <? 7)) with true; [reflexivity|].
  symmetry. apply andb_true_iff. lia.
Defined.

End CoverageFacts.
